(** * vFlow repository index generator (generate-index.py)

    A shallow embedding of the index generator: the identifier
    normalizers, the workflow and module validators, the workflow
    sanitizer, the two directory scanners, the index builder and the
    orchestrator, together with the properties of the specification that
    were checked against them.

    Conventions.
    - A Python [str] is a [string]; a non-ASCII character is the sequence
      of its UTF-8 bytes.  Searching for an ASCII pattern and ordering by
      code point are the same on code points and on UTF-8 bytes.
    - A parsed JSON value is a [json]; a Python [dict] is an association
      list in insertion order ([dict]).
    - [print] calls are not modelled: the console is not part of any
      statement below.  The text that is printed or written is taken to
      be text that UTF-8 can encode; see "Text that can be written" for
      the statements that depend on it. *)

From Stdlib Require Import String Ascii List ZArith Bool Lia Sorted Permutation.
From stdpp Require Import base option list strings gmap.

Set Warnings "-register-all".

Local Open Scope string_scope.
Local Open Scope list_scope.

(** ** Python string primitives *)

Module PyStr.

(** [s.endswith(suf)] *)
Definition endswith (s suf : string) : bool :=
  (String.length suf <=? String.length s)%nat
  && String.eqb
       (String.substring (String.length s - String.length suf)
                         (String.length suf) s)
       suf.

(** [s.replace(old, '')] for a non-empty [old]: the occurrences of [old]
    are found from left to right without overlap and every one of them
    is dropped.  [skip] counts the characters of the occurrence being
    dropped that are still ahead. *)
Fixpoint remove_from (skip : nat) (old s : string) : string :=
  match s with
  | EmptyString => EmptyString
  | String c s' =>
      match skip with
      | S k => remove_from k old s'
      | O =>
          if String.prefix old s
          then remove_from (String.length old - 1) old s'
          else String c (remove_from 0 old s')
      end
  end.

Definition remove_all (old s : string) : string := remove_from 0 old s.

(** [sub in s] for two strings *)
Fixpoint contains (sub s : string) : bool :=
  String.prefix sub s
  || match s with
     | EmptyString => false
     | String _ s' => contains sub s'
     end.

(** [sep.join(l)] *)
Definition join (sep : string) (l : list string) : string :=
  String.concat sep l.

End PyStr.

(** ** Identifier normalizers *)

(** [filename.replace('.json', '') if filename.endswith('.json') else filename] *)
Definition normalize_workflow_id (filename : string) : string :=
  if PyStr.endswith filename ".json"
  then PyStr.remove_all ".json" filename
  else filename.

(** [filename.replace('.zip', '') if filename.endswith('.zip') else filename] *)
Definition normalize_module_id (filename : string) : string :=
  if PyStr.endswith filename ".zip"
  then PyStr.remove_all ".zip" filename
  else filename.

(** ** JSON values and Python dictionaries *)

(** What [json.load] returns.  Numbers are kept as integers: no statement
    below depends on the value of a number. *)
Inductive json : Type :=
| JNull
| JBool (b : bool)
| JNum (n : Z)
| JStr (s : string)
| JArr (l : list json)
| JObj (d : list (string * json)).

(** A [dict] with string keys, in insertion order. *)
Definition dict : Type := list (string * json).

Section AssocList.
Context {V : Type}.

(** the value bound to [k], if any *)
Fixpoint alist_get (k : string) (d : list (string * V)) : option V :=
  match d with
  | [] => None
  | (k', v) :: d' => if String.eqb k' k then Some v else alist_get k d'
  end.

(** [d[k] = v]: an existing key keeps its place, a new key goes last *)
Fixpoint alist_set (k : string) (v : V) (d : list (string * V))
  : list (string * V) :=
  match d with
  | [] => [(k, v)]
  | (k', v') :: d' =>
      if String.eqb k' k then (k', v) :: d' else (k', v') :: alist_set k v d'
  end.

Definition alist_mem (k : string) (d : list (string * V)) : bool :=
  match alist_get k d with Some _ => true | None => false end.
End AssocList.

(** ** Exceptions *)

Inductive exn_class : Type :=
| JSONDecodeError
| UnicodeDecodeError
| BadZipFile
| TypeError
| KeyError
| AttributeError
| PermissionError
| FileNotFoundError.

(** An exception: its class and [str(e)].  The texts of the exceptions that
    the interpreter raises follow CPython 3.11; no statement depends on
    them. *)
Record exn : Type := Exn { exn_class_of : exn_class; exn_str : string }.

Inductive result (A : Type) : Type :=
| Ok (a : A)
| Raise (e : exn).
Arguments Ok {A} a.
Arguments Raise {A} e.

(** ** Python operations on a value of unknown type *)

(** the name of the type, as error messages print it *)
Definition type_name (v : json) : string :=
  match v with
  | JNull => "NoneType"
  | JBool _ => "bool"
  | JNum _ => "int"
  | JStr _ => "str"
  | JArr _ => "list"
  | JObj _ => "dict"
  end.

(** [v == s] for a string [s]: only an equal string is equal to a string *)
Definition py_eq_str (v : json) (s : string) : bool :=
  match v with
  | JStr s' => String.eqb s' s
  | _ => false
  end.

(** [key in container] *)
Definition py_in (key : string) (container : json) : result bool :=
  match container with
  | JObj d => Ok (alist_mem key d)
  | JArr l => Ok (existsb (fun v => py_eq_str v key) l)
  | JStr s => Ok (PyStr.contains key s)
  | v => Raise (Exn TypeError
                    ("argument of type '" +:+ type_name v +:+ "' is not iterable"))
  end.

(** [container[key]] for a string key *)
Definition py_getitem (container : json) (key : string) : result json :=
  match container with
  | JObj d =>
      match alist_get key d with
      | Some v => Ok v
      | None => Raise (Exn KeyError ("'" +:+ key +:+ "'"))
      end
  | JArr _ =>
      Raise (Exn TypeError "list indices must be integers or slices, not str")
  | JStr _ => Raise (Exn TypeError "string indices must be integers")
  | v => Raise (Exn TypeError
                    ("'" +:+ type_name v +:+ "' object is not subscriptable"))
  end.

(** [container.get(key, default)] *)
Definition py_get (container : json) (key : string) (default : json)
  : result json :=
  match container with
  | JObj d => Ok (match alist_get key d with Some v => v | None => default end)
  | v => Raise (Exn AttributeError
                    ("'" +:+ type_name v +:+ "' object has no attribute 'get'"))
  end.

(** ** The filesystem *)

(** What a file holds, as far as [json.load] is concerned: text that it
    rejects, with the message of the [JSONDecodeError], or text that it
    parses to a value. *)
Inductive text : Type :=
| Garbled (msg : string)
| JsonText (j : json).

(** A file is a text file or a ZIP archive with its entries in archive
    order. *)
Inductive fdata : Type :=
| Plain (t : text)
| Archive (entries : list (string * text)).

Record file : Type := File { f_data : fdata; f_writable : bool }.

(** The entries of a directory, in the order in which the operating system
    enumerates them. *)
Abbreviation directory := (list (string * file)).

(** Directory paths to directories.  Only directories have a path of their
    own here; [Path(p).exists()] is whether [p] is bound. *)
Abbreviation filesystem := (gmap string directory).

(** [p.split('/')]: the pieces of [p] between the separators *)
Fixpoint path_pieces (p : string) : list string :=
  match p with
  | EmptyString => [EmptyString]
  | String c p' =>
      if Ascii.eqb c "/"
      then EmptyString :: path_pieces p'
      else match path_pieces p' with
           | [] => [String c EmptyString]
           | piece :: pieces => String c piece :: pieces
           end
  end.

(** the components that [pathlib] keeps of a path: the pieces other than
    the empty one and [.] *)
Definition path_parts (p : string) : list string :=
  List.filter (fun piece => negb (String.eqb piece "" || String.eqb piece "."))
              (path_pieces p).

(** the root that [pathlib] keeps of a POSIX path: [//] for exactly two
    leading separators, [/] for one or for more than two, none
    otherwise *)
Definition path_root (p : string) : string :=
  match p with
  | String "/" (String "/" (String "/" _)) => "/"
  | String "/" (String "/" _) => "//"
  | String "/" _ => "/"
  | _ => ""
  end.

(** [str(Path(directory) / name)] for a file name [name] (a name has no
    separator): [pathlib] drops repeated separators, a trailing
    separator and [.] components of [directory]. *)
Definition path_join (directory name : string) : string :=
  path_root directory
    +:+ String.concat "/" (path_parts directory ++ [name]).

(** ** Computations with a state and exceptions

    [M S A]: a computation over a state [S] that returns an [A] or raises.
    The state that a computation has reached when it raises is kept: a
    handler runs from there, as in Python. *)

Definition M (S A : Type) : Type := S -> S * result A.

Definition ret {S A} (a : A) : M S A := fun s => (s, Ok a).

Definition bind {S A B} (m : M S A) (k : A -> M S B) : M S B :=
  fun s =>
    match m s with
    | (s', Ok a) => k a s'
    | (s', Raise e) => (s', Raise e)
    end.

(** [try: body / except Exception as e: handler(e)] *)
Definition try_except {S A} (body : M S A) (handler : exn -> M S A) : M S A :=
  fun s =>
    match body s with
    | (s', Ok a) => (s', Ok a)
    | (s', Raise e) => handler e s'
    end.

(** a pure computation that may raise *)
Definition lift {S A} (r : result A) : M S A := fun s => (s, r).

Definition modify {S} (f : S -> S) : M S unit := fun s => (f s, Ok tt).

(** [for x in l: body(x)] *)
Fixpoint for_each {S A} (l : list A) (body : A -> M S unit) : M S unit :=
  match l with
  | [] => ret tt
  | x :: l' => bind (body x) (fun _ => for_each l' body)
  end.

Declare Scope py_scope.
Delimit Scope py_scope with py.
Notation "x <- m ;; k" := (bind m (fun x => k))
  (at level 100, m at next level, right associativity) : py_scope.
Notation "m ;; k" := (bind m (fun _ => k))
  (at level 100, right associativity) : py_scope.
Local Open Scope py_scope.

(** ** Reading and writing files *)

(** [json.load] of a text *)
Definition json_loads (t : text) : result json :=
  match t with
  | JsonText j => Ok j
  | Garbled msg => Raise (Exn JSONDecodeError msg)
  end.

(** [with open(path, 'r', encoding='utf-8') as f: json.load(f)].  The bytes
    of an archive are taken not to decode as UTF-8. *)
Definition read_json (directory name : string) : M filesystem json :=
  fun fs =>
    match fs !! directory ≫= alist_get name with
    | None =>
        (fs, Raise (Exn FileNotFoundError
                        ("[Errno 2] No such file or directory: '"
                           +:+ path_join directory name +:+ "'")))
    | Some f =>
        match f_data f with
        | Plain t => (fs, json_loads t)
        | Archive _ =>
            (fs, Raise (Exn UnicodeDecodeError
                            "'utf-8' codec can't decode byte"))
        end
    end.

(** [with open(path, 'w', encoding='utf-8') as f: json.dump(j, f, ...)].
    Opening fails when the directory is missing or the file exists and
    may not be written; a new file is created writable.  The value is
    taken to be one that [json.dump] can encode ([encodable]), so that
    the dump goes through once the file is open.  Permissions of the
    directory itself are not modelled. *)
Definition write_json (directory name : string) (j : json)
  : M filesystem unit :=
  fun fs =>
    match fs !! directory with
    | None =>
        (fs, Raise (Exn FileNotFoundError
                        ("[Errno 2] No such file or directory: '"
                           +:+ path_join directory name +:+ "'")))
    | Some d =>
        match alist_get name d with
        | Some (File _ false) =>
            (fs, Raise (Exn PermissionError
                            ("[Errno 13] Permission denied: '"
                               +:+ path_join directory name +:+ "'")))
        | _ =>
            (<[directory := alist_set name (File (Plain (JsonText j)) true) d]> fs,
             Ok tt)
        end
    end.

(** [zipfile.ZipFile(path, 'r')]: the entries of the archive *)
Definition open_zip (directory name : string)
  : M filesystem (list (string * text)) :=
  fun fs =>
    match fs !! directory ≫= alist_get name with
    | None =>
        (fs, Raise (Exn FileNotFoundError
                        ("[Errno 2] No such file or directory: '"
                           +:+ path_join directory name +:+ "'")))
    | Some f =>
        match f_data f with
        | Archive entries => (fs, Ok entries)
        | Plain _ => (fs, Raise (Exn BadZipFile "File is not a zip file"))
        end
    end.

(** [json.load(zip_file.open(member))]: of several entries with one name
    the archive opens the one added last. *)
Definition zip_read_json (entries : list (string * text)) (member : string)
  : result json :=
  match alist_get member (rev entries) with
  | Some t => json_loads t
  | None =>
      Raise (Exn KeyError
                 ("There is no item named '" +:+ member +:+ "' in the archive"))
  end.

(** [dir_path.glob('*' + suffix)]: the names that end in [suffix], in
    enumeration order *)
Definition glob (suffix : string) (d : directory) : list string :=
  filter (fun name => PyStr.endswith name suffix = true) (map fst d).

(** ** The generator *)

Section Generator.

(** [str(v)] of a parsed value that is not a string, as an f-string
    renders it.  It is left open: it only reaches the text of the
    identifier-mismatch messages. *)
Variable str_of_value : json -> string.

(** [f"{v}"] *)
Definition fmt (v : json) : string :=
  match v with
  | JStr s => s
  | _ => str_of_value v
  end.

(** [[field for field in fields if field not in container]] *)
Fixpoint missing_of (fields : list string) (container : json)
  : result (list string) :=
  match fields with
  | [] => Ok []
  | field :: fields' =>
      match py_in field container with
      | Raise e => Raise e
      | Ok present =>
          match missing_of fields' container with
          | Raise e => Raise e
          | Ok rest => Ok (if present then rest else field :: rest)
          end
      end
  end.

(** *** Workflows *)

Definition required_meta_fields : list string :=
  ["id"; "name"; "description"; "author"; "version"; "vFlowLevel"].

(** [validate_workflow(data, filename)]: [(is_valid, error_message,
    cleaned_data)] *)
Definition validate_workflow (data : json) (filename : string)
  : result (bool * option string * option json) :=
  match py_in "_meta" data with
  | Raise e => Raise e
  | Ok false => Ok (false, Some "缺少 '_meta' 字段", None)
  | Ok true =>
      match py_getitem data "_meta" with
      | Raise e => Raise e
      | Ok meta =>
          match missing_of required_meta_fields meta with
          | Raise e => Raise e
          | Ok (f :: fs) =>
              Ok (false,
                  Some ("_meta缺少必需字段: " +:+ PyStr.join ", " (f :: fs)),
                  None)
          | Ok [] =>
              let expected_id := normalize_workflow_id filename in
              match py_getitem meta "id" with
              | Raise e => Raise e
              | Ok meta_id =>
                  if negb (py_eq_str meta_id expected_id)
                  then Ok (false,
                           Some ("_meta.id 不匹配: 文件名='" +:+ expected_id
                                   +:+ "', _meta.id='" +:+ fmt meta_id +:+ "'"),
                           None)
                  else Ok (true, None, Some data)
              end
          end
      end
  end.

(** [clean_workflow_for_repo(data)] on the value of [data]: the copy with
    the three flags forced to [False].  A value that is not a [dict]
    has no [copy] method or does not take a string subscript. *)
Definition clean_workflow_for_repo (data : json) : result json :=
  match data with
  | JObj d =>
      let cleaned := d in
      let cleaned := alist_set "isEnabled" (JBool false) cleaned in
      let cleaned := alist_set "isFavorite" (JBool false) cleaned in
      let cleaned :=
        alist_set "wasEnabledBeforePermissionsLost" (JBool false) cleaned in
      Ok (JObj cleaned)
  | JArr _ =>
      Raise (Exn TypeError "list indices must be integers or slices, not str")
  | v => Raise (Exn AttributeError
                    ("'" +:+ type_name v +:+ "' object has no attribute 'copy'"))
  end.

(** What a scanner has at hand while it runs: the filesystem and its
    three result lists. *)
Record scan_state : Type := ScanState {
  st_fs : filesystem;
  items : list dict;
  errors : list string;
  skipped_files : list string
}.

Definition append_item (item : dict) : M scan_state unit :=
  modify (fun s => ScanState (st_fs s) (items s ++ [item]) (errors s)
                             (skipped_files s)).

Definition append_error (msg : string) : M scan_state unit :=
  modify (fun s => ScanState (st_fs s) (items s) (errors s ++ [msg])
                             (skipped_files s)).

Definition append_skipped (name : string) : M scan_state unit :=
  modify (fun s => ScanState (st_fs s) (items s) (errors s)
                             (skipped_files s ++ [name])).

(** a filesystem operation, run by a scanner *)
Definition on_fs {A} (m : M filesystem A) : M scan_state A :=
  fun s =>
    let (fs', r) := m (st_fs s) in
    (ScanState fs' (items s) (errors s) (skipped_files s), r).

(** the index entry of a workflow *)
Definition workflow_item {S} (directory name : string) (meta : json)
  : M S dict :=
  id <- lift (py_get meta "id" (JStr (normalize_workflow_id name))) ;;
  name' <- lift (py_get meta "name" (JStr "未命名")) ;;
  description <- lift (py_get meta "description" (JStr "")) ;;
  author <- lift (py_get meta "author" (JStr "未知")) ;;
  version <- lift (py_get meta "version" (JStr "1.0.0")) ;;
  level <- lift (py_get meta "vFlowLevel" (JNum 1)) ;;
  homepage <- lift (py_get meta "homepage" (JStr "")) ;;
  tags <- lift (py_get meta "tags" (JArr [])) ;;
  updated_at <- lift (py_get meta "updated_at" (JStr "")) ;;
  ret [("id", id);
       ("name", name');
       ("description", description);
       ("author", author);
       ("version", version);
       ("vFlowLevel", level);
       ("homepage", homepage);
       ("tags", tags);
       ("updated_at", updated_at);
       ("filename", JStr name);
       ("download_url",
         JStr ("https://raw.githubusercontent.com/ChaoMixian/vFlow-Repos/main/workflows/"
                 +:+ name));
       ("local_path", JStr (path_join directory name))].

(** [f"{msg}"] of the message that a validator returns *)
Definition fmt_opt (msg : option string) : string :=
  match msg with
  | Some m => m
  | None => "None"
  end.

(** the body of the [for] loop of [scan_workflows_directory] for one
    file, the [index.json] test apart.  The [print] of the success line,
    last in the [try], is taken to go through (text that can be
    encoded). *)
Definition scan_workflow_file (directory name : string)
  : M scan_state unit :=
  try_except
    (data <- on_fs (read_json directory name) ;;
     v <- lift (validate_workflow data name) ;;
     let '(is_valid, error_msg, _) := v in
     if negb is_valid
     then
       append_error ("❌ " +:+ name +:+ ": " +:+ fmt_opt error_msg) ;;
       append_skipped name
     else
       meta <- lift (py_get data "_meta" (JObj [])) ;;
       cleaned_workflow <- lift (clean_workflow_for_repo data) ;;
       item <- workflow_item directory name meta ;;
       append_item item ;;
       on_fs (write_json directory name cleaned_workflow))
    (fun e =>
       match exn_class_of e with
       | JSONDecodeError =>
           append_error
             ("❌ " +:+ name +:+ ": JSON解析错误 - " +:+ exn_str e) ;;
           append_skipped name
       | _ =>
           append_error ("❌ " +:+ name +:+ ": " +:+ exn_str e) ;;
           append_skipped name
       end).

(** the result of a scanner: [(valid_items, errors, skipped_files)] *)
Definition scan_result : Type := list dict * list string * list string.

(** the loop of a scanner over the names that [glob] gave, from empty
    lists; [index.json] is passed over *)
Definition scan_loop (names : list string)
           (body : string -> M scan_state unit)
  : M filesystem scan_result :=
  fun fs =>
    let loop :=
      for_each names
        (fun name =>
           if String.eqb name "index.json" then ret tt else body name) in
    match loop (ScanState fs [] [] []) with
    | (s, Ok _) => (st_fs s, Ok (items s, errors s, skipped_files s))
    | (s, Raise e) => (st_fs s, Raise e)
    end.

(** [scan_workflows_directory(directory_path)] *)
Definition scan_workflows_directory (directory_path : string)
  : M filesystem scan_result :=
  fun fs =>
    match fs !! directory_path with
    | None => (fs, Ok ([], [], []))
    | Some d =>
        scan_loop (glob ".json" d) (scan_workflow_file directory_path) fs
    end.

(** *** Modules *)

Definition required_fields : list string :=
  ["id"; "name"; "description"; "author"; "version"; "category"].

(** [validate_module(manifest, filename)]: [(is_valid, error_message)] *)
Definition validate_module (manifest : json) (filename : string)
  : result (bool * option string) :=
  match missing_of required_fields manifest with
  | Raise e => Raise e
  | Ok (f :: fs) =>
      Ok (false,
          Some ("manifest缺少必需字段: " +:+ PyStr.join ", " (f :: fs)))
  | Ok [] =>
      let expected_id := normalize_module_id filename in
      match py_getitem manifest "id" with
      | Raise e => Raise e
      | Ok manifest_id =>
          if negb (py_eq_str manifest_id expected_id)
          then Ok (false,
                   Some ("manifest.id 不匹配: 文件名='" +:+ expected_id
                           +:+ "', manifest.id='" +:+ fmt manifest_id
                           +:+ "'"))
          else Ok (true, None)
      end
  end.

(** the index entry of a module *)
Definition module_item {S} (directory name : string) (manifest : json)
  : M S dict :=
  id <- lift (py_get manifest "id" (JStr (normalize_module_id name))) ;;
  name' <- lift (py_get manifest "name" (JStr "未命名")) ;;
  description <- lift (py_get manifest "description" (JStr "")) ;;
  author <- lift (py_get manifest "author" (JStr "未知")) ;;
  version <- lift (py_get manifest "version" (JStr "1.0.0")) ;;
  category <- lift (py_get manifest "category" (JStr "用户脚本")) ;;
  homepage <- lift (py_get manifest "homepage" (JStr "")) ;;
  permissions <- lift (py_get manifest "permissions" (JArr [])) ;;
  inputs <- lift (py_get manifest "inputs" (JArr [])) ;;
  outputs <- lift (py_get manifest "outputs" (JArr [])) ;;
  ret [("id", id);
       ("name", name');
       ("description", description);
       ("author", author);
       ("version", version);
       ("category", category);
       ("homepage", homepage);
       ("permissions", permissions);
       ("inputs", inputs);
       ("outputs", outputs);
       ("filename", JStr name);
       ("download_url",
         JStr ("https://raw.githubusercontent.com/ChaoMixian/vFlow-Repos/main/modules/"
                 +:+ name));
       ("local_path", JStr (path_join directory name))].

(** the body of the [for] loop of [scan_modules_directory] for one file,
    the [index.json] test apart.  The [print] of the success line, last
    in the [try] after the entry is appended, is taken to go through
    (text that can be encoded). *)
Definition scan_module_file (directory name : string)
  : M scan_state unit :=
  try_except
    (entries <- on_fs (open_zip directory name) ;;
     match List.find (fun file_in_zip =>
                        PyStr.endswith file_in_zip "manifest.json")
                     (map fst entries)
     with
     | None =>
         append_error ("❌ " +:+ name +:+ ": ZIP中未找到manifest.json") ;;
         append_skipped name
     | Some manifest_file =>
         manifest <- lift (zip_read_json entries manifest_file) ;;
         v <- lift (validate_module manifest name) ;;
         let '(is_valid, error_msg) := v in
         if negb is_valid
         then
           append_error ("❌ " +:+ name +:+ ": " +:+ fmt_opt error_msg) ;;
           append_skipped name
         else
           item <- module_item directory name manifest ;;
           append_item item
     end)
    (fun e =>
       match exn_class_of e with
       | BadZipFile =>
           append_error ("❌ " +:+ name +:+ ": 无效的ZIP文件") ;;
           append_skipped name
       | JSONDecodeError =>
           append_error
             ("❌ " +:+ name +:+ ": manifest.json解析错误 - " +:+ exn_str e) ;;
           append_skipped name
       | _ =>
           append_error ("❌ " +:+ name +:+ ": " +:+ exn_str e) ;;
           append_skipped name
       end).

(** [scan_modules_directory(directory_path)] *)
Definition scan_modules_directory (directory_path : string)
  : M filesystem scan_result :=
  fun fs =>
    match fs !! directory_path with
    | None => (fs, Ok ([], [], []))
    | Some d =>
        scan_loop (glob ".zip" d) (scan_module_file directory_path) fs
    end.

(** *** The index builder *)

(** the keys [x['id']] of the entries, in order *)
Fixpoint keys_of (l : list dict) : result (list json) :=
  match l with
  | [] => Ok []
  | x :: l' =>
      match py_getitem (JObj x) "id" with
      | Raise e => Raise e
      | Ok k =>
          match keys_of l' with
          | Raise e => Raise e
          | Ok ks => Ok (k :: ks)
          end
      end
  end.

Definition is_str (v : json) : bool :=
  match v with JStr _ => true | _ => false end.

Definition num_of (v : json) : option Z :=
  match v with
  | JNum n => Some n
  | JBool b => Some (if b then 1 else 0)%Z
  | _ => None
  end.

Definition is_num (v : json) : bool :=
  match num_of v with Some _ => true | None => false end.

(** [not (b < a)] for two strings (code point order) or two numbers *)
Definition key_leb (a b : json) : bool :=
  match a, b with
  | JStr s, JStr t => String.leb s t
  | _, _ =>
      match num_of a, num_of b with
      | Some m, Some n => (m <=? n)%Z
      | _, _ => true
      end
  end.

(** Keys that [list.sort] can order: at most one key (nothing is
    compared), strings only, or numbers only.  Both scanners give string
    keys.  For other lists of keys CPython raises [TypeError] at the
    first pair without an order that the sort compares; lists of arrays
    are left out. *)
Definition sortable (keys : list json) : bool :=
  (length keys <=? 1)%nat || forallb is_str keys || forallb is_num keys.

Fixpoint insert_by_key (x : json * dict) (l : list (json * dict))
  : list (json * dict) :=
  match l with
  | [] => [x]
  | y :: l' =>
      if key_leb (fst x) (fst y)
      then x :: y :: l'
      else y :: insert_by_key x l'
  end.

(** a stable sort by key: an entry stays before the later entries with
    an equal key *)
Fixpoint sort_by_key (l : list (json * dict)) : list (json * dict) :=
  match l with
  | [] => []
  | x :: l' => insert_by_key x (sort_by_key l')
  end.

(** [items.sort(key=lambda x: x['id'])], returning the sorted list *)
Definition list_sort_by_id (l : list dict) : result (list dict) :=
  match keys_of l with
  | Raise e => Raise e
  | Ok keys =>
      if sortable keys
      then Ok (map snd (sort_by_key (combine keys l)))
      else Raise (Exn TypeError "'<' not supported between instances")
  end.

(** the index document for sorted entries *)
Definition index_document (item_type now : string) (sorted : list dict)
  : dict :=
  alist_set item_type (JArr (map JObj sorted))
    (alist_set "total_count" (JNum (Z.of_nat (length sorted)))
       (alist_set "last_updated" (JStr now)
          (alist_set "version" (JStr "1.0") []))).

(** [generate_index(directory, item_type, scan_func, output_file)];
    [now] is [datetime.now().isoformat()] *)
Definition generate_index (directory item_type : string)
           (scan_func : string -> M filesystem scan_result)
           (now : string) (output_file : string)
  : M filesystem bool :=
  r <- scan_func directory ;;
  let '(items, errors, skipped_files) := r in
  items <- lift (list_sort_by_id items) ;;
  let index := index_document item_type now items in
  write_json directory output_file (JObj index) ;;
  ret (length errors =? 0)%nat.

(** *** The orchestrator *)

(** [main()]: the argument of [sys.exit].  [argv] is [sys.argv]; [now1]
    and [now2] are the clock readings of the two runs. *)
Definition main (argv : list string) (now1 now2 : string)
  : M filesystem Z :=
  let success := true in
  let workflows_dir :=
    if (1 <? length argv)%nat then nth 1 argv "workflows" else "workflows" in
  ok <- generate_index workflows_dir "workflows" scan_workflows_directory
          now1 "index.json" ;;
  let success := if negb ok then false else success in
  let modules_dir :=
    if (2 <? length argv)%nat then nth 2 argv "modules" else "modules" in
  ok <- generate_index modules_dir "modules" scan_modules_directory
          now2 "index.json" ;;
  let success := if negb ok then false else success in
  ret (if success then 0 else 1)%Z.

(** The exit status of the process: the argument of [sys.exit], or 1
    when an exception reaches the top level (the interpreter prints the
    traceback and exits with 1). *)
Definition exit_status (argv : list string) (now1 now2 : string)
           (fs : filesystem) : Z :=
  match main argv now1 now2 fs with
  | (_, Ok code) => code
  | (_, Raise _) => 1%Z
  end.

End Generator.

(** ** Objects and references

    [clean_workflow_for_repo] once more, on references into a store of
    [dict] objects, where copying and assignment show: [data.copy()] makes
    a new object and the three assignments go to that object. *)

Module ObjectStore.

(** the objects allocated so far; a reference is an index *)
Definition store : Type := list dict.
Definition ref : Type := nat.

(** [obj.copy()]: a new object with the same bindings *)
Definition copy (obj : ref) (st : store) : option (store * ref) :=
  d ← st !! obj; Some (st ++ [d], length st).

(** [obj[key] = value] *)
Definition setitem (obj : ref) (key : string) (value : json) (st : store)
  : option store :=
  d ← st !! obj; Some (<[obj := alist_set key value d]> st).

(** [clean_workflow_for_repo(data)]; [None] only for a reference to no
    object *)
Definition clean_workflow_for_repo_ref (data : ref) (st : store)
  : option (store * ref) :=
  r ← copy data st;
  let '(st, cleaned) := r in
  st ← setitem cleaned "isEnabled" (JBool false) st;
  st ← setitem cleaned "isFavorite" (JBool false) st;
  st ← setitem cleaned "wasEnabledBeforePermissionsLost" (JBool false) st;
  Some (st, cleaned).

End ObjectStore.

(** ** Orders and outcomes used in the statements *)

(** plain lexicographic order on strings, character codes compared as
    numbers *)
Inductive lex_le : string -> string -> Prop :=
| lex_le_empty (t : string) : lex_le EmptyString t
| lex_le_head (c1 c2 : ascii) (s t : string) :
    (N_of_ascii c1 < N_of_ascii c2)%N -> lex_le (String c1 s) (String c2 t)
| lex_le_tail (c : ascii) (s t : string) :
    lex_le s t -> lex_le (String c s) (String c t).

(** the [id] of the first entry is a string that is not after the [id] of
    the second *)
Definition id_le (a b : dict) : Prop :=
  exists s t : string,
    alist_get "id" a = Some (JStr s)
    /\ alist_get "id" b = Some (JStr t)
    /\ lex_le s t.

(** the three flags that the sanitizer forces *)
Definition runtime_flags : list string :=
  ["isEnabled"; "isFavorite"; "wasEnabledBeforePermissionsLost"].

(** [name] may be created or overwritten in [d] *)
Definition may_write (name : string) (d : directory) : Prop :=
  forall data, alist_get name d <> Some (File data false).

Definition with_fs (fs : filesystem) (s : scan_state) : scan_state :=
  ScanState fs (items s) (errors s) (skipped_files s).

Definition with_error (msg name : string) (s : scan_state) : scan_state :=
  ScanState (st_fs s) (items s) (errors s ++ [msg]) (skipped_files s ++ [name]).

Definition with_item (item : dict) (s : scan_state) : scan_state :=
  ScanState (st_fs s) (items s ++ [item]) (errors s) (skipped_files s).

(** the file that holds the sanitized workflow *)
Definition rewritten (cleaned : dict) : file :=
  File (Plain (JsonText (JObj cleaned))) true.

(** the sanitized bindings of a document *)
Definition cleaned_of (d : dict) : dict :=
  alist_set "wasEnabledBeforePermissionsLost" (JBool false)
    (alist_set "isFavorite" (JBool false)
       (alist_set "isEnabled" (JBool false) d)).

(** the fields of [fields] that have no binding in [m] *)
Definition absent_fields (fields : list string) (m : dict) : list string :=
  List.filter (fun field => negb (alist_mem field m)) fields.

(** What the loop body of the workflow scanner does to the scanner's state
    for the file [name]. *)
Inductive workflow_step (sv : json -> string) (directory_path name : string)
          (s : scan_state) : scan_state -> Prop :=
| workflow_skipped (msg : string) :
    (* an error is recorded; no entry, no write *)
    workflow_step sv directory_path name s (with_error msg name s)
| workflow_indexed (dir : directory) (d meta item : dict) :
    (* the file is valid and writable: entry, then rewrite *)
    st_fs s !! directory_path = Some dir ->
    alist_get name dir = Some (File (Plain (JsonText (JObj d))) true) ->
    validate_workflow sv (JObj d) name = Ok (true, None, Some (JObj d)) ->
    alist_get "_meta" d = Some (JObj meta) ->
    workflow_item directory_path name (JObj meta) s = (s, Ok item) ->
    workflow_step sv directory_path name s
      (with_fs (<[directory_path := alist_set name (rewritten (cleaned_of d)) dir]>
                  (st_fs s))
               (with_item item s))
| workflow_write_failed (dir : directory) (d meta item : dict) (msg : string) :
    (* the file is valid and read-only: entry, then the write raises *)
    st_fs s !! directory_path = Some dir ->
    alist_get name dir = Some (File (Plain (JsonText (JObj d))) false) ->
    validate_workflow sv (JObj d) name = Ok (true, None, Some (JObj d)) ->
    alist_get "_meta" d = Some (JObj meta) ->
    workflow_item directory_path name (JObj meta) s = (s, Ok item) ->
    workflow_step sv directory_path name s (with_error msg name (with_item item s)).

(** What the loop body of the module scanner does to the scanner's state
    for the file [name]. *)
Inductive module_step (sv : json -> string) (directory_path name : string)
          (s : scan_state) : scan_state -> Prop :=
| module_skipped (msg : string) :
    module_step sv directory_path name s (with_error msg name s)
| module_indexed (manifest item : dict) :
    validate_module sv (JObj manifest) name = Ok (true, None) ->
    module_item directory_path name (JObj manifest) s = (s, Ok item) ->
    module_step sv directory_path name s (with_item item s).

(** An entry of the workflow index: it was built from the metadata block
    [meta] of a document that the validator accepted under the file name
    [name], and its [id], the [id] of [meta] and the normalized file name
    are one string. *)
Definition workflow_entry_of (sv : json -> string) (item : dict) : Prop :=
  exists (name : string) (d meta : dict),
    validate_workflow sv (JObj d) name = Ok (true, None, Some (JObj d))
    /\ alist_get "_meta" d = Some (JObj meta)
    /\ alist_get "id" meta = Some (JStr (normalize_workflow_id name))
    /\ alist_get "id" item = Some (JStr (normalize_workflow_id name))
    /\ alist_get "filename" item = Some (JStr name).

(** An entry of the module index, likewise for a manifest. *)
Definition module_entry_of (sv : json -> string) (item : dict) : Prop :=
  exists (name : string) (manifest : dict),
    validate_module sv (JObj manifest) name = Ok (true, None)
    /\ alist_get "id" manifest = Some (JStr (normalize_module_id name))
    /\ alist_get "id" item = Some (JStr (normalize_module_id name))
    /\ alist_get "filename" item = Some (JStr name).

(** the default that [get] falls back on *)
Definition get_or (m : dict) (key : string) (default : json) : json :=
  match alist_get key m with Some v => v | None => default end.

(** the entry has a string for [id] *)
Definition has_str_id (x : dict) : Prop :=
  exists s : string, alist_get "id" x = Some (JStr s).

(** a sort key next to its entry: the key is the entry's [id], a string *)
Definition keyed (p : json * dict) : Prop :=
  exists s : string, fst p = JStr s /\ alist_get "id" (snd p) = Some (JStr s).

(** the order of the entries, on pairs of a key and an entry *)
Definition pair_le (p q : json * dict) : Prop := id_le (snd p) (snd q).

(** the file that the workflow scanner writes in place of [f], if it
    writes: [f] is writable text that parses to a document that the
    validator accepts under [name] *)
Definition rewrite_of (sv : json -> string) (name : string) (f : file)
  : option file :=
  match f with
  | File (Plain (JsonText (JObj d))) true =>
      match validate_workflow sv (JObj d) name with
      | Ok (true, _, _) => Some (rewritten (cleaned_of d))
      | _ => None
      end
  | _ => None
  end.

(** the filesystem after the loop body of the workflow scanner has run for
    [name] *)
Definition fs_after (sv : json -> string) (directory_path name : string)
           (fs : filesystem) : filesystem :=
  match fs !! directory_path with
  | Some d =>
      match alist_get name d ≫= rewrite_of sv name with
      | Some f' => <[directory_path := alist_set name f' d]> fs
      | None => fs
      end
  | None => fs
  end.

(** the filesystem after the loop of the workflow scanner over [names] *)
Definition fs_loop (sv : json -> string) (directory_path : string)
           (names : list string) (fs : filesystem) : filesystem :=
  foldl (fun fs name =>
           if String.eqb name "index.json" then fs
           else fs_after sv directory_path name fs)
        fs names.

(** a file for which the loop body of the workflow scanner leaves the
    filesystem as it is *)
Definition settled (sv : json -> string) (directory_path name : string)
           (fs : filesystem) : Prop :=
  fs_after sv directory_path name fs = fs.

(** the directories that [main] runs on *)
Definition workflows_dir_of (argv : list string) : string :=
  if (1 <? length argv)%nat then nth 1 argv "workflows" else "workflows".

Definition modules_dir_of (argv : list string) : string :=
  if (2 <? length argv)%nat then nth 2 argv "modules" else "modules".

(** The normalizer as the specification words it: the suffix is removed
    if the name ends with it, and nothing else changes. *)
Definition strip_suffix_spec (suffix filename : string) : string :=
  if PyStr.endswith filename suffix
  then String.substring 0 (String.length filename - String.length suffix)
                        filename
  else filename.

(** the character [c] occurs in [s] *)
Fixpoint has_char (c : ascii) (s : string) : bool :=
  match s with
  | EmptyString => false
  | String c' s' => if ascii_dec c c' then true else has_char c s'
  end.

(** ** Sample data *)

(** a rendering of values for the runs below *)
Definition str_by_type (v : json) : string := "<" +:+ type_name v +:+ ">".

(** the metadata block of a workflow with the identifier [id] *)
Definition sample_meta (id : string) : dict :=
  [("id", JStr id); ("name", JStr "Hello"); ("description", JStr "d");
   ("author", JStr "a"); ("version", JStr "1.0.0"); ("vFlowLevel", JNum 1)].

(** a workflow document that is enabled *)
Definition sample_workflow (id : string) : dict :=
  [("_meta", JObj (sample_meta id)); ("isEnabled", JBool true)].

(** a manifest with the identifier [id] *)
Definition sample_manifest (id : string) : dict :=
  [("id", JStr id); ("name", JStr "Pack"); ("description", JStr "d");
   ("author", JStr "a"); ("version", JStr "1.0.0");
   ("category", JStr "tools")].

(** a workflows directory with one valid workflow that may not be
    written *)
Definition read_only_fs : filesystem :=
  {[ "workflows" :=
       [("a.json", File (Plain (JsonText (JObj (sample_workflow "a")))) false)] ]}.

(** an empty workflows directory and no modules directory *)
Definition no_modules_fs : filesystem := {[ "workflows" := [] ]}.

(** two valid workflows, enumerated in descending order of name *)
Definition two_workflows : directory :=
  [("z.json", File (Plain (JsonText (JObj (sample_workflow "z")))) true);
   ("a.json", File (Plain (JsonText (JObj (sample_workflow "a")))) true)].

Definition two_workflows_fs : filesystem := {[ "workflows" := two_workflows ]}.

(** ** Vocabulary of the further properties *)

(** the file names that a scanner's loop works on: the names that [glob]
    gives, [index.json] apart *)
Definition scanned_names (suffix : string) (d : directory) : list string :=
  List.filter (fun name => negb (String.eqb name "index.json")) (glob suffix d).

(** an error line about the file [name]: the mark, the name, a colon and
    a space, and the message *)
Definition error_about (name line : string) : Prop :=
  exists rest : string, line = "❌ " +:+ name +:+ ": " +:+ rest.

(** the entry that the workflow scanner builds for [name] from some
    metadata block *)
Definition workflow_item_for (directory_path name : string) (item : dict)
  : Prop :=
  exists meta : dict,
    workflow_item directory_path name (JObj meta) tt = (tt, Ok item).

(** the entry that the module scanner builds for [name] from some
    manifest *)
Definition module_item_for (directory_path name : string) (item : dict)
  : Prop :=
  exists manifest : dict,
    module_item directory_path name (JObj manifest) tt = (tt, Ok item).

(** the keys of a workflow entry and of a module entry, in order *)
Definition workflow_item_keys : list string :=
  ["id"; "name"; "description"; "author"; "version"; "vFlowLevel";
   "homepage"; "tags"; "updated_at"; "filename"; "download_url";
   "local_path"].

Definition module_item_keys : list string :=
  ["id"; "name"; "description"; "author"; "version"; "category";
   "homepage"; "permissions"; "inputs"; "outputs"; "filename";
   "download_url"; "local_path"].

(** the entry's [id] is the string [s] *)
Definition has_id (s : string) (x : dict) : bool :=
  match alist_get "id" x with
  | Some v => py_eq_str v s
  | None => false
  end.

(** a workflows directory with a file that does not parse and a workflow
    whose identifier is not its file name *)
Definition mixed_workflows : directory :=
  [("bad.json", File (Plain (Garbled "Expecting value")) true);
   ("a.json", File (Plain (JsonText (JObj (sample_workflow "b")))) true)].

Definition mixed_workflows_fs : filesystem :=
  {[ "workflows" := mixed_workflows ]}.

(** a modules directory with a file that is no archive, an archive without
    a manifest, an archive whose manifest does not parse and a valid
    module *)
Definition mixed_modules : directory :=
  [("broken.zip", File (Plain (Garbled "PK")) true);
   ("empty.zip", File (Archive [("readme.txt", Garbled "hello")]) true);
   ("garbled.zip",
     File (Archive [("manifest.json", Garbled "Expecting value")]) true);
   ("pack.zip",
     File (Archive [("pack/manifest.json",
                      JsonText (JObj (sample_manifest "pack")))]) true)].

Definition mixed_modules_fs : filesystem := {[ "modules" := mixed_modules ]}.

(** both directories, empty *)
Definition empty_dirs_fs : filesystem :=
  {[ "workflows" := []; "modules" := [] ]}.

(** ** Text that can be written

    [json.load] turns an escape such as [\ud800] into a lone surrogate, a
    code point that UTF-8 cannot encode: [json.dump] to a file and [print]
    raise [UnicodeEncodeError] on a string that holds one.  [write_json]
    and the loop bodies of the scanners are the code for text without
    lone surrogates; the statements that depend on a write or a print
    going through say so with the predicates below.  A lone surrogate is
    taken as the three bytes [ED], [A0]..[BF], [80]..[BF] of its
    generalized UTF-8 form. *)

(** no lone surrogate in [s] *)
Fixpoint encodable_str (s : string) : bool :=
  match s with
  | EmptyString => true
  | String c s' =>
      match s' with
      | String c' _ =>
          negb ((N_of_ascii c =? 237)%N
                && (160 <=? N_of_ascii c')%N && (N_of_ascii c' <=? 191)%N)
      | EmptyString => true
      end
      && encodable_str s'
  end.

(** no lone surrogate in a string or a key of [j] *)
Fixpoint encodable (j : json) : bool :=
  match j with
  | JStr s => encodable_str s
  | JArr l => forallb encodable l
  | JObj d =>
      forallb (fun kv => match kv with
                         | (k, v) => encodable_str k && encodable v
                         end) d
  | _ => true
  end.

Definition text_encodable (t : text) : bool :=
  match t with
  | JsonText j => encodable j
  | Garbled _ => true
  end.

Definition file_encodable (f : file) : bool :=
  match f_data f with
  | Plain t => text_encodable t
  | Archive entries => forallb (fun e => text_encodable (snd e)) entries
  end.

(** the names and the contents of a directory can be written and
    printed *)
Definition dir_encodable (d : directory) : bool :=
  forallb (fun e => encodable_str (fst e) && file_encodable (snd e)) d.

(** a workflow [a.json.json] with the identifier [a], and a module
    [pack.zip.zip] with the identifier [pack] *)
Definition double_suffix_fs : filesystem :=
  {[ "workflows" :=
       [("a.json.json",
          File (Plain (JsonText (JObj (sample_workflow "a")))) true)];
     "modules" :=
       [("pack.zip.zip",
          File (Archive [("manifest.json",
                           JsonText (JObj (sample_manifest "pack")))]) true)] ]}.

(** * Properties *)

(** ** Association lists *)

Section AssocListFacts.
Context {V : Type}.
Implicit Types (k : string) (v : V) (d : list (string * V)).

Lemma alist_get_set_eq k v d : alist_get k (alist_set k v d) = Some v.
Proof.
  induction d as [|[k' v'] d IH]; simpl.
  - by rewrite String.eqb_refl.
  - destruct (String.eqb k' k) eqn:E; simpl; rewrite E; auto.
Qed.

Lemma alist_get_set_ne k k' v d :
  k <> k' -> alist_get k' (alist_set k v d) = alist_get k' d.
Proof.
  intros Hne. induction d as [|[k0 v0] d IH]; simpl.
  - apply String.eqb_neq in Hne. by rewrite Hne.
  - destruct (String.eqb k0 k) eqn:E; simpl.
    + apply String.eqb_eq in E. subst k0.
      apply String.eqb_neq in Hne. by rewrite Hne.
    + by rewrite IH.
Qed.

Lemma alist_set_same k v d : alist_get k d = Some v -> alist_set k v d = d.
Proof.
  induction d as [|[k' v'] d IH]; simpl; [done|].
  destruct (String.eqb k' k); intros H.
  - by inversion H.
  - by rewrite IH.
Qed.

Lemma alist_set_fixed k v d : alist_set k v d = d -> alist_get k d = Some v.
Proof. intros H. rewrite <- H. apply alist_get_set_eq. Qed.

Lemma alist_set_twice k v d : alist_set k v (alist_set k v d) = alist_set k v d.
Proof. apply alist_set_same, alist_get_set_eq. Qed.

Lemma alist_set_keys_get k v d :
  is_Some (alist_get k d) -> map fst (alist_set k v d) = map fst d.
Proof.
  induction d as [|[k' v'] d IH]; simpl.
  - by intros [? ?].
  - destruct (String.eqb k' k); simpl; [done|].
    intros H. by rewrite IH.
Qed.

Lemma alist_get_Some_elem k v d : alist_get k d = Some v -> (k, v) ∈ d.
Proof.
  induction d as [|[k' v'] d IH]; simpl; [done|].
  destruct (String.eqb k' k) eqn:E; intros H.
  - apply String.eqb_eq in E. inversion H. subst. left.
  - right. auto.
Qed.

Lemma alist_mem_true k d : alist_mem k d = true <-> is_Some (alist_get k d).
Proof.
  unfold alist_mem. destruct (alist_get k d); split; eauto; try done.
Qed.

Lemma alist_mem_false k d : alist_mem k d = false <-> alist_get k d = None.
Proof. unfold alist_mem. destruct (alist_get k d); split; done. Qed.
End AssocListFacts.

(** ** The sanitizer *)

Lemma clean_workflow_for_repo_dict (d : dict) :
  clean_workflow_for_repo (JObj d) = Ok (JObj (cleaned_of d)).
Proof. reflexivity. Qed.

Lemma cleaned_of_flag (d : dict) (k : string) :
  k ∈ runtime_flags -> alist_get k (cleaned_of d) = Some (JBool false).
Proof.
  unfold runtime_flags, cleaned_of. intros Hk.
  repeat (apply elem_of_cons in Hk as [-> | Hk]);
    [| | | by apply elem_of_nil in Hk].
  - rewrite !alist_get_set_ne by done. apply alist_get_set_eq.
  - rewrite alist_get_set_ne by done. apply alist_get_set_eq.
  - apply alist_get_set_eq.
Qed.

Lemma cleaned_of_other (d : dict) (k : string) :
  k ∉ runtime_flags -> alist_get k (cleaned_of d) = alist_get k d.
Proof.
  unfold runtime_flags, cleaned_of. intros Hk.
  rewrite !alist_get_set_ne; [done | | |];
    intros <-; apply Hk; repeat constructor.
Qed.

Lemma cleaned_of_idempotent (d : dict) : cleaned_of (cleaned_of d) = cleaned_of d.
Proof.
  unfold cleaned_of at 1.
  rewrite (alist_set_same "isEnabled")
    by (apply cleaned_of_flag; repeat constructor).
  rewrite (alist_set_same "isFavorite")
    by (apply cleaned_of_flag; repeat constructor).
  apply alist_set_same, cleaned_of_flag. repeat constructor.
Qed.

Lemma setitem_last (st : ObjectStore.store) (d : dict) (k : string) (v : json) :
  ObjectStore.setitem (length st) k v (st ++ [d])
  = Some (st ++ [alist_set k v d]).
Proof.
  unfold ObjectStore.setitem, ObjectStore.store in *.
  rewrite lookup_app_r by apply Nat.le_refl.
  rewrite Nat.sub_diag. simpl.
  rewrite insert_app_r_alt by apply Nat.le_refl.
  by rewrite Nat.sub_diag.
Qed.

Lemma clean_workflow_for_repo_ref_run
      (st : ObjectStore.store) (data : ObjectStore.ref) (d : dict) :
  st !! data = Some d ->
  ObjectStore.clean_workflow_for_repo_ref data st
  = Some (st ++ [cleaned_of d], length st).
Proof.
  intros Hd. unfold ObjectStore.clean_workflow_for_repo_ref, ObjectStore.copy.
  rewrite Hd. simpl.
  rewrite setitem_last. simpl. rewrite setitem_last. simpl.
  by rewrite setitem_last.
Qed.

(** C4: on a store where [data] refers to the document [d], the sanitizer
    returns a reference [cleaned] to a new object; the object of [data]
    and every other object that existed are as they were; the new object
    holds the value that the sanitizer computes for [d]; in it the three
    runtime flags are [False] and every other key has the binding that it
    has in [d]. *)
Theorem clean_workflow_for_repo_copy
        (st : ObjectStore.store) (data : ObjectStore.ref) (d : dict) :
  st !! data = Some d ->
  exists (st' : ObjectStore.store) (cleaned : ObjectStore.ref),
    ObjectStore.clean_workflow_for_repo_ref data st = Some (st', cleaned)
    /\ clean_workflow_for_repo (JObj d) = Ok (JObj (cleaned_of d))
    /\ st' !! cleaned = Some (cleaned_of d)
    /\ st !! cleaned = None
    /\ st' !! data = Some d
    /\ (forall r : ObjectStore.ref, r <> cleaned -> st' !! r = st !! r)
    /\ (forall k, k ∈ runtime_flags ->
                  alist_get k (cleaned_of d) = Some (JBool false))
    /\ (forall k, k ∉ runtime_flags ->
                  alist_get k (cleaned_of d) = alist_get k d).
Proof.
  intros Hd. exists (st ++ [cleaned_of d]), (length st).
  unfold ObjectStore.store, ObjectStore.ref in *.
  pose proof (lookup_lt_Some _ _ _ Hd) as Hlt.
  split; [by apply clean_workflow_for_repo_ref_run|].
  split; [reflexivity|].
  split; [rewrite lookup_app_r by apply Nat.le_refl; by rewrite Nat.sub_diag|].
  split; [by apply lookup_ge_None_2|].
  split; [by rewrite lookup_app_l|].
  split.
  { intros r Hr. destruct (decide (r < length st)%nat).
    - by rewrite lookup_app_l.
    - rewrite !lookup_ge_None_2; [done | lia |].
      rewrite length_app. simpl. lia. }
  split; [apply cleaned_of_flag | apply cleaned_of_other].
Qed.


(** ** The validators *)

Section Validators.
Variable sv : json -> string.

Lemma missing_of_dict (fields : list string) (m : dict) :
  missing_of fields (JObj m) = Ok (absent_fields fields m).
Proof.
  induction fields as [|f fields IH]; simpl; [done|].
  rewrite IH. by destruct (alist_mem f m).
Qed.

Lemma absent_fields_spec (fields : list string) (m : dict) (f : string) :
  f ∈ absent_fields fields m <-> f ∈ fields /\ alist_get f m = None.
Proof.
  unfold absent_fields. rewrite !list_elem_of_In, filter_In.
  rewrite negb_true_iff, alist_mem_false. done.
Qed.

Lemma absent_fields_nil (fields : list string) (m : dict) :
  absent_fields fields m = [] ->
  forall f, f ∈ fields -> is_Some (alist_get f m).
Proof.
  intros Hnil f Hf. destruct (alist_get f m) eqn:E; [eauto|].
  assert (f ∈ absent_fields fields m) as Hin by by apply absent_fields_spec.
  rewrite Hnil in Hin. by apply elem_of_nil in Hin.
Qed.

Lemma py_eq_str_true (v : json) (s : string) :
  py_eq_str v s = true -> v = JStr s.
Proof.
  destruct v; simpl; try done. intros H. by apply String.eqb_eq in H as ->.
Qed.

Lemma py_getitem_Ok (container : json) (key : string) (v : json) :
  py_getitem container key = Ok v ->
  exists d, container = JObj d /\ alist_get key d = Some v.
Proof.
  destruct container; simpl; try done.
  destruct (alist_get key d) eqn:E; [|done]. intros [= ->]. eauto.
Qed.

(** what an accepted workflow document looks like *)
Lemma validate_workflow_true (data : json) (name : string)
      (m : option string) (c : option json) :
  validate_workflow sv data name = Ok (true, m, c) ->
  exists d meta : dict,
    data = JObj d
    /\ alist_get "_meta" d = Some (JObj meta)
    /\ (forall f, f ∈ required_meta_fields -> is_Some (alist_get f meta))
    /\ alist_get "id" meta = Some (JStr (normalize_workflow_id name))
    /\ m = None /\ c = Some data.
Proof.
  unfold validate_workflow.
  destruct (py_in "_meta" data) as [[|]|] eqn:Hin; try done.
  destruct (py_getitem data "_meta") as [meta|] eqn:Hget; try done.
  destruct (missing_of required_meta_fields meta) as [[|? ?]|] eqn:Hmiss;
    try done.
  destruct (py_getitem meta "id") as [meta_id|] eqn:Hid; try done.
  destruct (py_eq_str meta_id (normalize_workflow_id name)) eqn:Heq;
    simpl; try done.
  intros [= <- <-].
  apply py_getitem_Ok in Hget as (d & -> & Hmeta).
  apply py_getitem_Ok in Hid as (md & -> & Hmid).
  apply py_eq_str_true in Heq as ->.
  rewrite missing_of_dict in Hmiss. injection Hmiss as Hmiss.
  exists d, md. repeat split; try done.
  by apply absent_fields_nil.
Qed.

(** what an accepted manifest looks like *)
Lemma validate_module_true (manifest : json) (name : string)
      (m : option string) :
  validate_module sv manifest name = Ok (true, m) ->
  exists d : dict,
    manifest = JObj d
    /\ (forall f, f ∈ required_fields -> is_Some (alist_get f d))
    /\ alist_get "id" d = Some (JStr (normalize_module_id name))
    /\ m = None.
Proof.
  unfold validate_module.
  destruct (missing_of required_fields manifest) as [[|? ?]|] eqn:Hmiss;
    try done.
  destruct (py_getitem manifest "id") as [manifest_id|] eqn:Hid; try done.
  destruct (py_eq_str manifest_id (normalize_module_id name)) eqn:Heq;
    simpl; try done.
  intros [= <-].
  apply py_getitem_Ok in Hid as (d & -> & Hmid).
  apply py_eq_str_true in Heq as ->.
  rewrite missing_of_dict in Hmiss. injection Hmiss as Hmiss.
  exists d. repeat split; try done.
  by apply absent_fields_nil.
Qed.

(** C7: a workflow document whose metadata block is an object that lacks
    a required field is rejected with the message that lists the absent
    required fields, and a manifest that is an object and lacks a
    required field likewise; a field is in the list exactly when it is
    required and has no binding. *)
Theorem missing_required_fields_named
        (d meta manifest : dict) (filename : string) :
  (alist_get "_meta" d = Some (JObj meta) ->
   (exists f, f ∈ required_meta_fields /\ alist_get f meta = None) ->
   validate_workflow sv (JObj d) filename
   = Ok (false,
         Some ("_meta缺少必需字段: "
                 +:+ PyStr.join ", " (absent_fields required_meta_fields meta)),
         None)
   /\ forall f, f ∈ absent_fields required_meta_fields meta
                <-> f ∈ required_meta_fields /\ alist_get f meta = None)
  /\ ((exists f, f ∈ required_fields /\ alist_get f manifest = None) ->
      validate_module sv (JObj manifest) filename
      = Ok (false,
            Some ("manifest缺少必需字段: "
                    +:+ PyStr.join ", " (absent_fields required_fields manifest)))
      /\ forall f, f ∈ absent_fields required_fields manifest
                   <-> f ∈ required_fields /\ alist_get f manifest = None).
Proof.
  split.
  - intros Hmeta (f & Hf & Hnone).
    split; [|intros; apply absent_fields_spec].
    unfold validate_workflow. cbn [py_in py_getitem].
    assert (alist_mem "_meta" d = true) as ->
        by (apply alist_mem_true; rewrite Hmeta; eauto).
    rewrite Hmeta, missing_of_dict.
    destruct (absent_fields required_meta_fields meta) eqn:E; [|done].
    assert (f ∈ absent_fields required_meta_fields meta) as Hin
        by by apply absent_fields_spec.
    rewrite E in Hin. by apply elem_of_nil in Hin.
  - intros (f & Hf & Hnone).
    split; [|intros; apply absent_fields_spec].
    unfold validate_module. rewrite missing_of_dict.
    destruct (absent_fields required_fields manifest) eqn:E; [|done].
    assert (f ∈ absent_fields required_fields manifest) as Hin
        by by apply absent_fields_spec.
    rewrite E in Hin. by apply elem_of_nil in Hin.
Qed.

End Validators.

(** ** One file at a time *)

Section Steps.
Variable sv : json -> string.

Lemma workflow_item_dict {S} (directory_path name : string) (meta : dict)
      (s : S) :
  workflow_item directory_path name (JObj meta) s
  = (s, Ok [("id", get_or meta "id" (JStr (normalize_workflow_id name)));
            ("name", get_or meta "name" (JStr "未命名"));
            ("description", get_or meta "description" (JStr ""));
            ("author", get_or meta "author" (JStr "未知"));
            ("version", get_or meta "version" (JStr "1.0.0"));
            ("vFlowLevel", get_or meta "vFlowLevel" (JNum 1));
            ("homepage", get_or meta "homepage" (JStr ""));
            ("tags", get_or meta "tags" (JArr []));
            ("updated_at", get_or meta "updated_at" (JStr ""));
            ("filename", JStr name);
            ("download_url",
              JStr ("https://raw.githubusercontent.com/ChaoMixian/vFlow-Repos/main/workflows/"
                      +:+ name));
            ("local_path", JStr (path_join directory_path name))]).
Proof. reflexivity. Qed.

Lemma module_item_dict {S} (directory_path name : string) (manifest : dict)
      (s : S) :
  module_item directory_path name (JObj manifest) s
  = (s, Ok [("id", get_or manifest "id" (JStr (normalize_module_id name)));
            ("name", get_or manifest "name" (JStr "未命名"));
            ("description", get_or manifest "description" (JStr ""));
            ("author", get_or manifest "author" (JStr "未知"));
            ("version", get_or manifest "version" (JStr "1.0.0"));
            ("category", get_or manifest "category" (JStr "用户脚本"));
            ("homepage", get_or manifest "homepage" (JStr ""));
            ("permissions", get_or manifest "permissions" (JArr []));
            ("inputs", get_or manifest "inputs" (JArr []));
            ("outputs", get_or manifest "outputs" (JArr []));
            ("filename", JStr name);
            ("download_url",
              JStr ("https://raw.githubusercontent.com/ChaoMixian/vFlow-Repos/main/modules/"
                      +:+ name));
            ("local_path", JStr (path_join directory_path name))]).
Proof. reflexivity. Qed.

Local Ltac skipped :=
  match goal with
  | |- exists s', _ ?name ?s = _ /\ _ =>
      eexists (with_error _ name s); split;
      [reflexivity | first [apply workflow_skipped | apply module_skipped]]
  | |- exists s', _ = _ /\ _ ?name ?s _ =>
      eexists (with_error _ name s); split;
      [reflexivity | first [apply workflow_skipped | apply module_skipped]]
  end.

(** the loop body of the workflow scanner returns, and does one of the
    three things of [workflow_step] *)
Lemma scan_workflow_file_step (directory_path name : string) (s : scan_state) :
  exists s', scan_workflow_file sv directory_path name s = (s', Ok tt)
             /\ workflow_step sv directory_path name s s'.
Proof.
  unfold scan_workflow_file, try_except, bind, on_fs, read_json, lift.
  destruct (st_fs s !! directory_path) as [dir|] eqn:Hdir; simpl;
    [|skipped].
  destruct (alist_get name dir) as [[fd w]|] eqn:Hf; simpl;
    [|skipped].
  destruct fd as [[msg|j]|es]; simpl;
    try (skipped).
  destruct (validate_workflow sv j name) as [[[[|] m] c]|[[] msg]] eqn:Hv;
    simpl; try (skipped).
  destruct (validate_workflow_true sv _ _ _ _ Hv)
    as (d & meta & -> & Hmeta & Hreq & Hid & -> & ->).
  simpl. rewrite Hmeta.
  unfold append_item, modify, write_json. simpl. rewrite Hdir, Hf.
  destruct w; simpl.
  - eexists; split; [reflexivity|].
    eapply (workflow_indexed sv directory_path name s dir d meta); eauto.
  - eexists; split; [reflexivity|].
    eapply (workflow_write_failed sv directory_path name s dir d meta); eauto.
Qed.

(** the loop body of the module scanner returns, and does one of the two
    things of [module_step]; it writes nothing *)
Lemma scan_module_file_step (directory_path name : string) (s : scan_state) :
  exists s', scan_module_file sv directory_path name s = (s', Ok tt)
             /\ module_step sv directory_path name s s'.
Proof.
  unfold scan_module_file, try_except, bind, on_fs, open_zip, lift.
  destruct (st_fs s !! directory_path) as [dir|] eqn:Hdir; simpl; [|skipped].
  destruct (alist_get name dir) as [[fd w]|] eqn:Hf; simpl; [|skipped].
  destruct fd as [t|es]; simpl; [skipped|].
  destruct (List.find _ (map fst es)) as [member|]; simpl; [|skipped].
  destruct (zip_read_json es member) as [manifest|[[] msg]]; simpl;
    try skipped.
  destruct (validate_module sv manifest name) as [[[|] m]|[[] msg]] eqn:Hv;
    simpl; try skipped.
  destruct (validate_module_true sv _ _ _ Hv) as (d & -> & Hreq & Hid & ->).
  eexists (with_item _ s). split; [reflexivity|].
  by apply (module_indexed sv directory_path name s d).
Qed.

End Steps.

(** ** Loops *)

Lemma for_each_invariant {S A : Type} (P : S -> Prop) (l : list A)
      (body : A -> M S unit) :
  (forall x s, x ∈ l -> P s -> exists s', body x s = (s', Ok tt) /\ P s') ->
  forall s, P s -> exists s', for_each l body s = (s', Ok tt) /\ P s'.
Proof.
  induction l as [|x l IH]; intros Hbody s Hs; simpl.
  - by exists s.
  - destruct (Hbody x s) as (s1 & Hx & Hs1); [left | done |].
    destruct (IH (fun y s0 Hy => Hbody y s0 (list_elem_of_further _ _ _ Hy))
                 s1 Hs1)
      as (s2 & Hl & Hs2).
    exists s2. split; [|done]. unfold bind. by rewrite Hx.
Qed.

(** A scanner's loop returns its three lists; what holds of the empty
    lists and is kept by the body for every file other than [index.json]
    holds at the end. *)
Lemma scan_loop_invariant (P : scan_state -> Prop) (names : list string)
      (body : string -> M scan_state unit) (fs : filesystem) :
  P (ScanState fs [] [] []) ->
  (forall name s, name ∈ names -> name <> "index.json" -> P s ->
                  exists s', body name s = (s', Ok tt) /\ P s') ->
  exists s',
    scan_loop names body fs
    = (st_fs s', Ok (items s', errors s', skipped_files s'))
    /\ P s'.
Proof.
  intros Hinit Hbody. unfold scan_loop.
  destruct (for_each_invariant P names
              (fun name => if String.eqb name "index.json"
                           then ret tt else body name))
    with (s := ScanState fs [] [] []) as (s' & Hrun & Hs'); [|done|].
  - intros name s Hin Hs. destruct (String.eqb name "index.json") eqn:E.
    + by exists s.
    + apply String.eqb_neq in E. by apply Hbody.
  - exists s'. by rewrite Hrun.
Qed.

(** ** The scanners *)

Section Scanners.
Variable sv : json -> string.

Lemma workflow_item_entry (directory_path name : string) (d meta item : dict)
      (s : scan_state) :
  validate_workflow sv (JObj d) name = Ok (true, None, Some (JObj d)) ->
  alist_get "_meta" d = Some (JObj meta) ->
  workflow_item directory_path name (JObj meta) s = (s, Ok item) ->
  workflow_entry_of sv item.
Proof.
  intros Hv Hmeta Hitem.
  destruct (validate_workflow_true sv _ _ _ _ Hv)
    as (d' & meta' & [= <-] & Hmeta' & _ & Hid & _).
  rewrite Hmeta in Hmeta'. injection Hmeta' as <-.
  rewrite workflow_item_dict in Hitem. injection Hitem as <-.
  exists name, d, meta. repeat split; try done.
  simpl. unfold get_or. by rewrite Hid.
Qed.

Lemma module_item_entry (directory_path name : string) (manifest item : dict)
      (s : scan_state) :
  validate_module sv (JObj manifest) name = Ok (true, None) ->
  module_item directory_path name (JObj manifest) s = (s, Ok item) ->
  module_entry_of sv item.
Proof.
  intros Hv Hitem.
  destruct (validate_module_true sv _ _ _ Hv) as (d' & [= <-] & _ & Hid & _).
  rewrite module_item_dict in Hitem. injection Hitem as <-.
  exists name, manifest. repeat split; try done.
  simpl. unfold get_or. by rewrite Hid.
Qed.

(** The workflow scanner on a directory that exists: it returns; every
    entry is the entry of an accepted document; the directory is still
    there, with [index.json] as it was; other directories are as they
    were. *)
Lemma scan_workflows_directory_spec (directory_path : string)
      (fs : filesystem) (d0 : directory) :
  fs !! directory_path = Some d0 ->
  exists (fs' : filesystem) (its : list dict) (errs skp : list string)
         (d' : directory),
    scan_workflows_directory sv directory_path fs = (fs', Ok (its, errs, skp))
    /\ Forall (workflow_entry_of sv) its
    /\ fs' !! directory_path = Some d'
    /\ alist_get "index.json" d' = alist_get "index.json" d0
    /\ (forall p, p <> directory_path -> fs' !! p = fs !! p).
Proof.
  intros Hd0. unfold scan_workflows_directory. rewrite Hd0.
  destruct (scan_loop_invariant
              (fun s =>
                 Forall (workflow_entry_of sv) (items s)
                 /\ exists d', st_fs s !! directory_path = Some d'
                      /\ alist_get "index.json" d' = alist_get "index.json" d0
                      /\ forall p, p <> directory_path ->
                                   st_fs s !! p = fs !! p)
              (glob ".json" d0) (scan_workflow_file sv directory_path) fs)
    as (s' & Hrun & Hitems & d' & Hd' & Hidx & Hother).
  - simpl. split; [constructor|]. by exists d0.
  - intros name s _ Hname (Hitems & d' & Hd' & Hidx & Hother).
    destruct (scan_workflow_file_step sv directory_path name s)
      as (s' & Hrun & Hstep).
    exists s'. split; [done|].
    destruct Hstep as [msg | dir d meta item Hdir Hf Hv Hmeta Hitem
                       | dir d meta item msg Hdir Hf Hv Hmeta Hitem]; simpl.
    + split; [done|]. by exists d'.
    + split.
      { apply Forall_app. split; [done|]. constructor; [|constructor].
        by eapply workflow_item_entry. }
      assert (dir = d') as -> by congruence.
      exists (alist_set name (rewritten (cleaned_of d)) d').
      split; [by rewrite lookup_insert_eq|].
      split; [by rewrite alist_get_set_ne|].
      intros p Hp. by rewrite lookup_insert_ne; auto.
    + split.
      { apply Forall_app. split; [done|]. constructor; [|constructor].
        by eapply workflow_item_entry. }
      by exists d'.
  - exists (st_fs s'), (items s'), (errors s'), (skipped_files s'), d'.
    by rewrite Hrun.
Qed.

(** The module scanner on a directory that exists: it returns; every
    entry is the entry of an accepted manifest; nothing is written. *)
Lemma scan_modules_directory_spec (directory_path : string)
      (fs : filesystem) (d0 : directory) :
  fs !! directory_path = Some d0 ->
  exists (its : list dict) (errs skp : list string),
    scan_modules_directory sv directory_path fs = (fs, Ok (its, errs, skp))
    /\ Forall (module_entry_of sv) its.
Proof.
  intros Hd0. unfold scan_modules_directory. rewrite Hd0.
  destruct (scan_loop_invariant
              (fun s => Forall (module_entry_of sv) (items s) /\ st_fs s = fs)
              (glob ".zip" d0) (scan_module_file sv directory_path) fs)
    as (s' & Hrun & Hitems & Hfs).
  - simpl. split; [constructor | done].
  - intros name s _ Hname (Hitems & Hfs).
    destruct (scan_module_file_step sv directory_path name s)
      as (s' & Hrun & Hstep).
    exists s'. split; [done|].
    destruct Hstep as [msg | manifest item Hv Hitem]; simpl.
    + done.
    + split; [|done].
      apply Forall_app. split; [done|]. constructor; [|constructor].
      by eapply module_item_entry.
  - exists (items s'), (errors s'), (skipped_files s').
    rewrite Hrun, Hfs. done.
Qed.

(** a directory that does not exist: nothing is scanned *)
Lemma scan_missing_directory (directory_path : string) (fs : filesystem) :
  fs !! directory_path = None ->
  scan_workflows_directory sv directory_path fs = (fs, Ok ([], [], []))
  /\ scan_modules_directory sv directory_path fs = (fs, Ok ([], [], [])).
Proof.
  intros H. unfold scan_workflows_directory, scan_modules_directory.
  by rewrite H.
Qed.

(** Each scanner returns, and every entry that it returns was built for a
    file name and a document (a manifest, for modules) that the validator
    accepted under that name; the entry's [id], the [id] of the metadata
    block (of the manifest) and what the normalizer returns for the file
    name are the same string, and the entry's [filename] is the file
    name. *)
Theorem entry_id_is_normalized_filename
        (directory_path : string) (fs : filesystem) :
  (exists fs' its errs skp,
      scan_workflows_directory sv directory_path fs = (fs', Ok (its, errs, skp))
      /\ Forall (workflow_entry_of sv) its)
  /\ (exists fs' its errs skp,
         scan_modules_directory sv directory_path fs
         = (fs', Ok (its, errs, skp))
         /\ Forall (module_entry_of sv) its).
Proof.
  destruct (fs !! directory_path) as [d0|] eqn:Hd.
  - split.
    + destruct (scan_workflows_directory_spec directory_path fs d0 Hd)
        as (fs' & its & errs & skp & d' & Hrun & Hits & _).
      by exists fs', its, errs, skp.
    + destruct (scan_modules_directory_spec directory_path fs d0 Hd)
        as (its & errs & skp & Hrun & Hits).
      by exists fs, its, errs, skp.
  - destruct (scan_missing_directory directory_path fs Hd) as [Hw Hm].
    split; exists fs, [], [], []; (split; [done | constructor]).
Qed.

End Scanners.

(** ** The order of the entries *)

Lemma leb_lex (s t : string) : String.leb s t = true <-> lex_le s t.
Proof.
  revert t. induction s as [|c1 s IH]; intros [|c2 t].
  - split; [constructor | done].
  - split; [constructor | done].
  - split; [done | inversion 1].
  - unfold String.leb in *. simpl.
    unfold Ascii.compare. destruct (N.compare_spec (N_of_ascii c1) (N_of_ascii c2))
      as [Heq | Hlt | Hgt].
    + assert (c1 = c2) as ->.
      { rewrite <- (ascii_N_embedding c1), <- (ascii_N_embedding c2).
        by rewrite Heq. }
      rewrite IH. split; [apply lex_le_tail|].
      inversion 1; subst; [lia | done].
    + split; [intros _; by apply lex_le_head | done].
    + split; [done|]. inversion 1; subst; lia.
Qed.

Lemma lex_le_trans (s t u : string) : lex_le s t -> lex_le t u -> lex_le s u.
Proof.
  intros H1. revert u. induction H1; intros u H2.
  - constructor.
  - inversion H2; subst.
    + apply lex_le_head. lia.
    + by apply lex_le_head.
  - inversion H2; subst.
    + by apply lex_le_head.
    + apply lex_le_tail. auto.
Qed.

Lemma lex_le_total (s t : string) : lex_le s t \/ lex_le t s.
Proof. rewrite <- !leb_lex. apply String.leb_total. Qed.

Lemma id_le_trans (a b c : dict) : id_le a b -> id_le b c -> id_le a c.
Proof.
  intros (s & t & Ha & Hb & Hst) (t' & u & Hb' & Hc & Htu).
  rewrite Hb in Hb'. injection Hb' as <-.
  exists s, u. eauto using lex_le_trans.
Qed.

Lemma key_leb_keyed (p q : json * dict) :
  keyed p -> keyed q ->
  (key_leb (fst p) (fst q) = true -> pair_le p q)
  /\ (key_leb (fst p) (fst q) = false -> pair_le q p).
Proof.
  intros (s & Hs & Hps) (t & Ht & Hqt). rewrite Hs, Ht. simpl.
  split; intros H.
  - exists s, t. by rewrite <- leb_lex.
  - exists t, s. repeat split; try done.
    destruct (lex_le_total s t) as [Hle | Hle]; [|done].
    apply leb_lex in Hle. congruence.
Qed.

Lemma insert_by_key_Permutation (x : json * dict) (l : list (json * dict)) :
  Permutation (insert_by_key x l) (x :: l).
Proof.
  induction l as [|y l IH]; simpl; [done|].
  destruct (key_leb (fst x) (fst y)); [done|].
  rewrite IH. apply perm_swap.
Qed.

Lemma sort_by_key_Permutation (l : list (json * dict)) :
  Permutation (sort_by_key l) l.
Proof.
  induction l as [|x l IH]; simpl; [done|].
  by rewrite insert_by_key_Permutation, IH.
Qed.

Lemma insert_by_key_HdRel (x y : json * dict) (l : list (json * dict)) :
  pair_le y x -> HdRel pair_le y l -> HdRel pair_le y (insert_by_key x l).
Proof.
  intros Hyx Hl. destruct l as [|z l]; simpl; [by constructor|].
  destruct (key_leb (fst x) (fst z)); constructor; [done|].
  by inversion Hl.
Qed.

Lemma insert_by_key_Sorted (x : json * dict) (l : list (json * dict)) :
  keyed x -> Forall keyed l ->
  Sorted pair_le l -> Sorted pair_le (insert_by_key x l).
Proof.
  intros Hx Hl Hs. induction l as [|y l IH]; simpl.
  - constructor; constructor.
  - inversion Hl; subst. inversion Hs; subst.
    destruct (key_leb_keyed x y) as [Hle Hgt]; [done..|].
    destruct (key_leb (fst x) (fst y)).
    + constructor; [done|]. constructor. auto.
    + constructor; [auto|]. apply insert_by_key_HdRel; auto.
Qed.

Lemma sort_by_key_Sorted (l : list (json * dict)) :
  Forall keyed l -> Sorted pair_le (sort_by_key l).
Proof.
  induction l as [|x l IH]; intros Hl; simpl; [constructor|].
  inversion Hl; subst.
  apply insert_by_key_Sorted; auto.
  eapply Permutation_Forall; [|done].
  symmetry. apply sort_by_key_Permutation.
Qed.

Lemma StronglySorted_pair_le (l : list (json * dict)) :
  StronglySorted pair_le l -> StronglySorted id_le (map snd l).
Proof.
  induction 1 as [|p l Hl IH Hp]; simpl; constructor; [done|].
  apply Forall_map. done.
Qed.

Lemma keys_of_str (l : list dict) :
  Forall has_str_id l ->
  exists ks : list json,
    keys_of l = Ok ks
    /\ forallb is_str ks = true
    /\ Forall keyed (combine ks l)
    /\ map snd (combine ks l) = l.
Proof.
  induction 1 as [|x l [s Hx] Hl (ks & Hks & Hstr & Hkeyed & Hsnd)]; simpl.
  - by exists [].
  - rewrite Hx, Hks. exists (JStr s :: ks). simpl.
    repeat split; try done.
    + constructor; [|done]. by exists s.
    + by rewrite Hsnd.
Qed.

(** sorting entries whose [id]s are strings: the result has the same
    entries, in ascending order of [id] *)
Lemma list_sort_by_id_spec (l : list dict) :
  Forall has_str_id l ->
  exists sorted : list dict,
    list_sort_by_id l = Ok sorted
    /\ Permutation sorted l
    /\ StronglySorted id_le sorted.
Proof.
  intros Hl. destruct (keys_of_str l Hl) as (ks & Hks & Hstr & Hkeyed & Hsnd).
  exists (map snd (sort_by_key (combine ks l))).
  unfold list_sort_by_id, sortable. rewrite Hks, Hstr, orb_true_r. simpl.
  split; [done|]. split.
  - rewrite <- Hsnd at 2. apply Permutation_map, sort_by_key_Permutation.
  - apply StronglySorted_pair_le, Sorted_StronglySorted.
    + intros p q r. apply id_le_trans.
    + by apply sort_by_key_Sorted.
Qed.

(** ** The index builder *)

Lemma write_json_ok (directory_path name : string) (j : json)
      (fs : filesystem) (d : directory) :
  fs !! directory_path = Some d ->
  may_write name d ->
  write_json directory_path name j fs
  = (<[directory_path := alist_set name (File (Plain (JsonText j)) true) d]> fs,
     Ok tt).
Proof.
  intros Hd Hw. unfold write_json. rewrite Hd.
  destruct (alist_get name d) as [[fd [|]]|] eqn:E; try done.
  by destruct (Hw fd).
Qed.

Lemma write_json_missing (directory_path name : string) (j : json)
      (fs : filesystem) :
  fs !! directory_path = None ->
  write_json directory_path name j fs
  = (fs, Raise (Exn FileNotFoundError
                    ("[Errno 2] No such file or directory: '"
                       +:+ path_join directory_path name +:+ "'"))).
Proof. intros Hd. unfold write_json. by rewrite Hd. Qed.

Lemma may_write_after_write (name : string) (f : fdata) (d : directory) :
  may_write name (alist_set name (File f true) d).
Proof. intros data. by rewrite alist_get_set_eq. Qed.

(** the index document binds [total_count] to the number of entries and
    the item type to the entries *)
Lemma index_document_fields (item_type now : string) (sorted : list dict) :
  item_type ∈ ["workflows"; "modules"] ->
  alist_get "total_count" (index_document item_type now sorted)
  = Some (JNum (Z.of_nat (length sorted)))
  /\ alist_get item_type (index_document item_type now sorted)
     = Some (JArr (map JObj sorted))
  /\ alist_get "version" (index_document item_type now sorted)
     = Some (JStr "1.0")
  /\ alist_get "last_updated" (index_document item_type now sorted)
     = Some (JStr now).
Proof.
  intros H. apply elem_of_cons in H as [-> | H]; [done|].
  apply elem_of_cons in H as [-> | H]; [done|].
  by apply elem_of_nil in H.
Qed.

(** One run of the index builder, for a scanner that returns entries with
    string [id]s and leaves a directory in which [index.json] may be
    written: the run returns whether there was no error, and has written
    the index document of the sorted entries. *)
Lemma generate_index_spec
      (scan_func : string -> M filesystem scan_result)
      (directory_path item_type now : string)
      (fs fs1 : filesystem) (its : list dict) (errs skp : list string)
      (d1 : directory) :
  scan_func directory_path fs = (fs1, Ok (its, errs, skp)) ->
  Forall has_str_id its ->
  fs1 !! directory_path = Some d1 ->
  may_write "index.json" d1 ->
  exists sorted : list dict,
    generate_index directory_path item_type scan_func now "index.json" fs
    = (<[directory_path :=
           alist_set "index.json"
             (File (Plain (JsonText
                      (JObj (index_document item_type now sorted)))) true)
             d1]> fs1,
       Ok (length errs =? 0)%nat)
    /\ Permutation sorted its
    /\ StronglySorted id_le sorted.
Proof.
  intros Hscan Hids Hd1 Hw.
  destruct (list_sort_by_id_spec its Hids) as (sorted & Hsort & Hperm & Hss).
  exists sorted. split; [|done].
  unfold generate_index, bind, lift. rewrite Hscan, Hsort.
  by rewrite (write_json_ok _ _ _ _ d1).
Qed.

(** a run on a directory that does not exist ends in the exception of the
    write of the index document *)
Lemma generate_index_missing
      (scan_func : string -> M filesystem scan_result)
      (directory_path item_type now : string) (fs : filesystem) :
  scan_func directory_path fs = (fs, Ok ([], [], [])) ->
  fs !! directory_path = None ->
  generate_index directory_path item_type scan_func now "index.json" fs
  = (fs, Raise (Exn FileNotFoundError
                    ("[Errno 2] No such file or directory: '"
                       +:+ path_join directory_path "index.json" +:+ "'"))).
Proof.
  intros Hscan Hd. unfold generate_index, bind, lift. rewrite Hscan. simpl.
  by rewrite write_json_missing.
Qed.

Section Index.
Variable sv : json -> string.

Lemma workflow_entry_has_str_id (item : dict) :
  workflow_entry_of sv item -> has_str_id item.
Proof. intros (name & d & meta & _ & _ & _ & Hid & _). by eexists. Qed.

Lemma module_entry_has_str_id (item : dict) :
  module_entry_of sv item -> has_str_id item.
Proof. intros (name & d & _ & _ & Hid & _). by eexists. Qed.

(** a run of the index builder for workflows on a directory that exists
    and in which [index.json] may be written *)
Lemma generate_workflows_index (directory_path now : string)
      (fs : filesystem) (d0 : directory) :
  fs !! directory_path = Some d0 ->
  may_write "index.json" d0 ->
  exists (fs1 : filesystem) (its : list dict) (errs skp : list string)
         (d1 : directory) (sorted : list dict),
    scan_workflows_directory sv directory_path fs = (fs1, Ok (its, errs, skp))
    /\ fs1 !! directory_path = Some d1
    /\ (forall p, p <> directory_path -> fs1 !! p = fs !! p)
    /\ generate_index directory_path "workflows"
         (scan_workflows_directory sv) now "index.json" fs
       = (<[directory_path :=
              alist_set "index.json"
                (File (Plain (JsonText
                         (JObj (index_document "workflows" now sorted)))) true)
                d1]> fs1,
          Ok (length errs =? 0)%nat)
    /\ Permutation sorted its
    /\ StronglySorted id_le sorted.
Proof.
  intros Hd0 Hw.
  destruct (scan_workflows_directory_spec sv directory_path fs d0 Hd0)
    as (fs1 & its & errs & skp & d1 & Hscan & Hits & Hd1 & Hidx & Hother).
  destruct (generate_index_spec (scan_workflows_directory sv) directory_path
              "workflows" now fs fs1 its errs skp d1)
    as (sorted & Hrun & Hperm & Hss); try done.
  - eapply Forall_impl; [done|]. apply workflow_entry_has_str_id.
  - intros data. rewrite Hidx. apply Hw.
  - by exists fs1, its, errs, skp, d1, sorted.
Qed.

(** a run of the index builder for modules, likewise *)
Lemma generate_modules_index (directory_path now : string)
      (fs : filesystem) (d0 : directory) :
  fs !! directory_path = Some d0 ->
  may_write "index.json" d0 ->
  exists (its : list dict) (errs skp : list string) (sorted : list dict),
    scan_modules_directory sv directory_path fs = (fs, Ok (its, errs, skp))
    /\ generate_index directory_path "modules"
         (scan_modules_directory sv) now "index.json" fs
       = (<[directory_path :=
              alist_set "index.json"
                (File (Plain (JsonText
                         (JObj (index_document "modules" now sorted)))) true)
                d0]> fs,
          Ok (length errs =? 0)%nat)
    /\ Permutation sorted its
    /\ StronglySorted id_le sorted.
Proof.
  intros Hd0 Hw.
  destruct (scan_modules_directory_spec sv directory_path fs d0 Hd0)
    as (its & errs & skp & Hscan & Hits).
  destruct (generate_index_spec (scan_modules_directory sv) directory_path
              "modules" now fs fs its errs skp d0)
    as (sorted & Hrun & Hperm & Hss); try done.
  - eapply Forall_impl; [done|]. apply module_entry_has_str_id.
  - by exists its, errs, skp, sorted.
Qed.

(** C5: for a directory that exists and in which [index.json] may be
    written, whatever the order of its entries, a run of the index builder
    writes an index document whose entries are the scanner's entries
    sorted ascending by [id] in plain lexicographic order, and whose
    [total_count] is the length of that list of entries; for workflows and
    for modules. *)
Theorem index_sorted_and_counted (directory_path now : string)
        (fs : filesystem) (d0 : directory) :
  fs !! directory_path = Some d0 ->
  may_write "index.json" d0 ->
  (exists fs1 its errs skp fs' ok sorted,
      scan_workflows_directory sv directory_path fs = (fs1, Ok (its, errs, skp))
      /\ generate_index directory_path "workflows"
           (scan_workflows_directory sv) now "index.json" fs
         = (fs', Ok ok)
      /\ fs' !! directory_path ≫= alist_get "index.json"
         = Some (File (Plain (JsonText
                         (JObj (index_document "workflows" now sorted)))) true)
      /\ alist_get "workflows" (index_document "workflows" now sorted)
         = Some (JArr (map JObj sorted))
      /\ alist_get "total_count" (index_document "workflows" now sorted)
         = Some (JNum (Z.of_nat (length sorted)))
      /\ Permutation sorted its
      /\ StronglySorted id_le sorted)
  /\ (exists fs1 its errs skp fs' ok sorted,
         scan_modules_directory sv directory_path fs
         = (fs1, Ok (its, errs, skp))
         /\ generate_index directory_path "modules"
              (scan_modules_directory sv) now "index.json" fs
            = (fs', Ok ok)
         /\ fs' !! directory_path ≫= alist_get "index.json"
            = Some (File (Plain (JsonText
                            (JObj (index_document "modules" now sorted)))) true)
         /\ alist_get "modules" (index_document "modules" now sorted)
            = Some (JArr (map JObj sorted))
         /\ alist_get "total_count" (index_document "modules" now sorted)
            = Some (JNum (Z.of_nat (length sorted)))
         /\ Permutation sorted its
         /\ StronglySorted id_le sorted).
Proof.
  intros Hd0 Hw. split.
  - destruct (generate_workflows_index directory_path now fs d0 Hd0 Hw)
      as (fs1 & its & errs & skp & d1 & sorted & Hscan & Hd1 & _ & Hrun
          & Hperm & Hss).
    eexists fs1, its, errs, skp, _, _, sorted.
    split; [done|]. split; [exact Hrun|].
    split; [rewrite lookup_insert_eq; simpl; by rewrite alist_get_set_eq|].
    done.
  - destruct (generate_modules_index directory_path now fs d0 Hd0 Hw)
      as (its & errs & skp & sorted & Hscan & Hrun & Hperm & Hss).
    eexists fs, its, errs, skp, _, _, sorted.
    split; [done|]. split; [exact Hrun|].
    split; [rewrite lookup_insert_eq; simpl; by rewrite alist_get_set_eq|].
    done.
Qed.

End Index.

(** ** The orchestrator *)

Section Orchestrator.
Variable sv : json -> string.

(** When both directories exist, both index documents may be written and
    the names and contents of both directories are text that can be
    encoded, the exit status is 0 exactly when neither scan recorded an
    error, and 1 otherwise.  The module scan runs on the filesystem that
    the workflow run left. *)
Lemma exit_status_when_written (argv : list string) (now1 now2 : string)
      (fs : filesystem) (dw dm : directory) :
  fs !! workflows_dir_of argv = Some dw ->
  may_write "index.json" dw ->
  fs !! modules_dir_of argv = Some dm ->
  may_write "index.json" dm ->
  dir_encodable dw = true ->
  dir_encodable dm = true ->
  encodable_str (workflows_dir_of argv) = true ->
  encodable_str (modules_dir_of argv) = true ->
  exists fs1 its1 errs1 skp1 fs2 ok1 its2 errs2 skp2,
    scan_workflows_directory sv (workflows_dir_of argv) fs
    = (fs1, Ok (its1, errs1, skp1))
    /\ generate_index (workflows_dir_of argv) "workflows"
         (scan_workflows_directory sv) now1 "index.json" fs
       = (fs2, Ok ok1)
    /\ scan_modules_directory sv (modules_dir_of argv) fs2
       = (fs2, Ok (its2, errs2, skp2))
    /\ exit_status sv argv now1 now2 fs
       = (if (length errs1 =? 0)%nat && (length errs2 =? 0)%nat
          then 0 else 1)%Z.
Proof.
  intros Hdw Hww Hdm Hwm _ _ _ _.
  destruct (generate_workflows_index sv _ now1 fs dw Hdw Hww)
    as (fs1 & its1 & errs1 & skp1 & d1 & sorted1 & Hscan1 & Hd1 & Hother
        & Hrun1 & _).
  set (fs2 := <[workflows_dir_of argv :=
                  alist_set "index.json"
                    (File (Plain (JsonText
                             (JObj (index_document "workflows" now1 sorted1))))
                          true) d1]> fs1) in *.
  assert (exists d2, fs2 !! modules_dir_of argv = Some d2
                     /\ may_write "index.json" d2) as (d2 & Hd2 & Hw2).
  { destruct (decide (workflows_dir_of argv = modules_dir_of argv)) as [E|E].
    - eexists. split.
      + subst fs2. rewrite <- E. apply lookup_insert_eq.
      + apply may_write_after_write.
    - exists dm. split; [|done].
      subst fs2. rewrite lookup_insert_ne by done.
      rewrite Hother by done. done. }
  destruct (generate_modules_index sv _ now2 fs2 d2 Hd2 Hw2)
    as (its2 & errs2 & skp2 & sorted2 & Hscan2 & Hrun2 & _).
  exists fs1, its1, errs1, skp1, fs2, (length errs1 =? 0)%nat,
         its2, errs2, skp2.
  split; [done|]. split; [done|]. split; [done|].
  unfold exit_status, main, bind, ret.
  fold (workflows_dir_of argv). fold (modules_dir_of argv).
  rewrite Hrun1, Hrun2.
  by destruct (length errs1 =? 0)%nat, (length errs2 =? 0)%nat.
Qed.

End Orchestrator.

(** ** Entries of accepted documents *)

Section Entries.
Variable sv : json -> string.

Lemma get_or_Some (m : dict) (key : string) (default v : json) :
  alist_get key m = Some v -> get_or m key default = v.
Proof. unfold get_or. by intros ->. Qed.

(** C10: for a workflow document that the validator accepts, the entry
    that the scanner builds from its metadata block binds each of [id],
    [name], [description], [author], [version] and [vFlowLevel] to the
    value that the metadata block binds it to, so no default is used for
    them; for a manifest that the module validator accepts, likewise with
    [category] in place of [vFlowLevel]. *)
Theorem required_fields_verbatim {S : Type}
        (directory_path name : string) (data manifest : json)
        (m m' : option string) (c : option json) (s : S) :
  (validate_workflow sv data name = Ok (true, m, c) ->
   exists meta item : dict,
     py_get data "_meta" (JObj []) = Ok (JObj meta)
     /\ workflow_item directory_path name (JObj meta) s = (s, Ok item)
     /\ forall f, f ∈ required_meta_fields ->
                  exists v, alist_get f meta = Some v
                            /\ alist_get f item = Some v)
  /\ (validate_module sv manifest name = Ok (true, m') ->
      exists d item : dict,
        manifest = JObj d
        /\ module_item directory_path name manifest s = (s, Ok item)
        /\ forall f, f ∈ required_fields ->
                     exists v, alist_get f d = Some v
                               /\ alist_get f item = Some v).
Proof.
  split.
  - intros Hv.
    destruct (validate_workflow_true sv _ _ _ _ Hv)
      as (d & meta & -> & Hmeta & Hreq & _).
    eexists meta, _. split; [simpl; by rewrite Hmeta|].
    split; [apply workflow_item_dict|].
    intros f Hf. destruct (Hreq f Hf) as [v Hfv]. exists v. split; [done|].
    unfold required_meta_fields in Hf.
    repeat (apply elem_of_cons in Hf as [-> | Hf]);
      try (simpl; by erewrite get_or_Some).
    by apply elem_of_nil in Hf.
  - intros Hv.
    destruct (validate_module_true sv _ _ _ Hv) as (d & -> & Hreq & _).
    eexists d, _. split; [done|].
    split; [apply module_item_dict|].
    intros f Hf. destruct (Hreq f Hf) as [v Hfv]. exists v. split; [done|].
    unfold required_fields in Hf.
    repeat (apply elem_of_cons in Hf as [-> | Hf]);
      try (simpl; by erewrite get_or_Some).
    by apply elem_of_nil in Hf.
Qed.

End Entries.

(** ** Scanning again *)

Section Rescan.
Variable sv : json -> string.

(** the sanitizer does not touch what the validator looks at *)
Lemma validate_workflow_cleaned (d : dict) (name : string)
      (m : option string) (c : option json) :
  validate_workflow sv (JObj d) name = Ok (true, m, c) ->
  validate_workflow sv (JObj (cleaned_of d)) name
  = Ok (true, m, Some (JObj (cleaned_of d))).
Proof.
  intros Hv.
  destruct (validate_workflow_true sv _ _ _ _ Hv)
    as (d' & meta & [= <-] & Hmeta & Hreq & Hid & -> & ->).
  revert Hv. unfold validate_workflow. cbn [py_in py_getitem].
  unfold alist_mem. rewrite (cleaned_of_other d "_meta").
  - rewrite Hmeta.
    destruct (missing_of required_meta_fields (JObj meta)) as [[|? ?]|];
      try done.
    intros _. cbn [py_getitem]. rewrite Hid. simpl.
    by rewrite String.eqb_refl.
  - unfold runtime_flags. intros H.
    repeat (apply elem_of_cons in H as [? | H]; [done|]).
    by apply elem_of_nil in H.
Qed.

Lemma rewrite_of_rewritten (name : string) (f f' : file) :
  rewrite_of sv name f = Some f' -> rewrite_of sv name f' = Some f'.
Proof.
  destruct f as [[[msg|[| | | | |d]]|es] [|]]; simpl; try done.
  destruct (validate_workflow sv (JObj d) name) as [[[[|] m] c]|] eqn:Hv;
    try done.
  intros [= <-]. simpl.
  rewrite (validate_workflow_cleaned _ _ _ _ Hv).
  by rewrite cleaned_of_idempotent.
Qed.

(** the loop body changes the filesystem as [fs_after] says *)
Lemma scan_workflow_file_fs (directory_path name : string) (s : scan_state) :
  st_fs (fst (scan_workflow_file sv directory_path name s))
  = fs_after sv directory_path name (st_fs s).
Proof.
  unfold fs_after.
  unfold scan_workflow_file, try_except, bind, on_fs, read_json, lift.
  destruct (st_fs s !! directory_path) as [dir|] eqn:Hdir; simpl; [|done].
  destruct (alist_get name dir) as [[fd w]|] eqn:Hf; simpl; [|done].
  destruct fd as [[msg|j]|es]; simpl; try done.
  destruct (validate_workflow sv j name) as [[[[|] m] c]|[[] msg]] eqn:Hv;
    simpl; try (by destruct j as [| | | | |?], w; simpl; rewrite ?Hv).
  destruct (validate_workflow_true sv _ _ _ _ Hv)
    as (d & meta & -> & Hmeta & Hreq & Hid & -> & ->).
  simpl. rewrite Hmeta, Hv.
  unfold append_item, modify, write_json. simpl. rewrite Hdir, Hf.
  by destruct w.
Qed.

Lemma for_each_scan_fs (directory_path : string) (names : list string)
      (s : scan_state) :
  st_fs (fst (for_each names
                (fun name =>
                   if String.eqb name "index.json" then ret tt
                   else scan_workflow_file sv directory_path name) s))
  = fs_loop sv directory_path names (st_fs s).
Proof.
  revert s. induction names as [|name names IH]; intros s; simpl; [done|].
  unfold bind. destruct (String.eqb name "index.json") eqn:E.
  - simpl. apply IH.
  - destruct (scan_workflow_file_step sv directory_path name s)
      as (s' & Hrun & _).
    pose proof (scan_workflow_file_fs directory_path name s) as Hfs.
    rewrite Hrun in *. simpl in Hfs. rewrite <- Hfs. apply IH.
Qed.

(** the filesystem that the workflow scanner leaves *)
Lemma scan_workflows_directory_fs (directory_path : string) (fs : filesystem) :
  fst (scan_workflows_directory sv directory_path fs)
  = match fs !! directory_path with
    | Some d => fs_loop sv directory_path (glob ".json" d) fs
    | None => fs
    end.
Proof.
  unfold scan_workflows_directory.
  destruct (fs !! directory_path) as [d|]; [|done].
  unfold scan_loop.
  pose proof (for_each_scan_fs directory_path (glob ".json" d)
                (ScanState fs [] [] [])) as H.
  destruct (for_each _ _ _) as [s' [[]|e]]; simpl in *; done.
Qed.

Lemma fs_after_settled (directory_path name : string) (fs : filesystem) :
  settled sv directory_path name (fs_after sv directory_path name fs).
Proof.
  unfold settled, fs_after.
  destruct (fs !! directory_path) as [d|] eqn:Hd; [|by rewrite Hd].
  destruct (alist_get name d) as [f|] eqn:Hf; simpl;
    [|by rewrite Hd, Hf].
  destruct (rewrite_of sv name f) as [f'|] eqn:Hr;
    [|by rewrite Hd, Hf; simpl; rewrite Hr].
  rewrite lookup_insert_eq, alist_get_set_eq. simpl.
  rewrite (rewrite_of_rewritten _ _ _ Hr).
  by rewrite insert_insert_eq, alist_set_twice.
Qed.

Lemma fs_after_cases (directory_path name : string) (fs : filesystem) :
  fs_after sv directory_path name fs = fs
  \/ exists d g, fs !! directory_path = Some d
                 /\ fs_after sv directory_path name fs
                    = <[directory_path := alist_set name g d]> fs.
Proof.
  unfold fs_after. destruct (fs !! directory_path) as [d|]; [|by left].
  destruct (alist_get name d ≫= rewrite_of sv name) as [g|]; [|by left].
  right. by exists d, g.
Qed.

Lemma fs_after_keeps_settled (directory_path name other : string)
      (fs : filesystem) :
  settled sv directory_path name fs ->
  settled sv directory_path name (fs_after sv directory_path other fs).
Proof.
  destruct (decide (other = name)) as [->|Hne];
    [intros _; apply fs_after_settled|].
  intros Hs.
  destruct (fs_after_cases directory_path other fs) as [-> | (d & g & Hd & ->)];
    [done|].
  revert Hs. unfold settled, fs_after. rewrite Hd, lookup_insert_eq.
  rewrite alist_get_set_ne by done.
  destruct (alist_get name d ≫= rewrite_of sv name) as [f'|]; [|done].
  intros Hs.
  assert (alist_set name f' d = d) as Hfix.
  { apply (f_equal (fun m : filesystem => m !! directory_path)) in Hs.
    rewrite lookup_insert_eq, Hd in Hs. by injection Hs. }
  apply alist_set_fixed in Hfix.
  rewrite insert_insert_eq. f_equal.
  apply alist_set_same. by rewrite alist_get_set_ne.
Qed.

Lemma fs_loop_app (directory_path : string) (l1 l2 : list string)
      (fs : filesystem) :
  fs_loop sv directory_path (l1 ++ l2) fs
  = fs_loop sv directory_path l2 (fs_loop sv directory_path l1 fs).
Proof. unfold fs_loop. apply foldl_app. Qed.

Lemma fs_loop_settled (directory_path : string) (names : list string)
      (fs : filesystem) (name : string) :
  name ∈ names -> name <> "index.json" ->
  settled sv directory_path name (fs_loop sv directory_path names fs).
Proof.
  induction names as [|other names IH] using rev_ind; intros Hin Hname.
  - by apply elem_of_nil in Hin.
  - rewrite fs_loop_app. simpl.
    destruct (String.eqb other "index.json") eqn:E.
    + apply elem_of_app in Hin as [Hin | Hin]; [by apply IH|].
      apply list_elem_of_singleton in Hin as ->.
      by apply String.eqb_eq in E.
    + apply elem_of_app in Hin as [Hin | Hin].
      * apply fs_after_keeps_settled. by apply IH.
      * apply list_elem_of_singleton in Hin as ->. apply fs_after_settled.
Qed.

Lemma fs_loop_fixed (directory_path : string) (names : list string)
      (fs : filesystem) :
  (forall name, name ∈ names -> name <> "index.json" ->
                settled sv directory_path name fs) ->
  fs_loop sv directory_path names fs = fs.
Proof.
  induction names as [|name names IH]; intros Hs; simpl; [done|].
  destruct (String.eqb name "index.json") eqn:E.
  - apply IH. intros n Hn. apply Hs. by right.
  - apply String.eqb_neq in E. rewrite (Hs name); [|left|done].
    apply IH. intros n Hn. apply Hs. by right.
Qed.

(** the loop keeps the directory and the names in it *)
Lemma fs_after_names (directory_path name : string) (fs : filesystem)
      (d : directory) :
  fs !! directory_path = Some d ->
  exists d', fs_after sv directory_path name fs !! directory_path = Some d'
             /\ map fst d' = map fst d.
Proof.
  intros Hd. unfold fs_after. rewrite Hd.
  destruct (alist_get name d) as [f|] eqn:Hf; simpl; [|by exists d].
  destruct (rewrite_of sv name f) as [f'|]; [|by exists d].
  eexists. split; [apply lookup_insert_eq|].
  apply alist_set_keys_get. by rewrite Hf.
Qed.

Lemma fs_loop_names (directory_path : string) (names : list string)
      (fs : filesystem) (d : directory) :
  fs !! directory_path = Some d ->
  exists d', fs_loop sv directory_path names fs !! directory_path = Some d'
             /\ map fst d' = map fst d.
Proof.
  revert fs d. induction names as [|name names IH]; intros fs d Hd; simpl.
  - by exists d.
  - destruct (String.eqb name "index.json"); [by apply IH|].
    destruct (fs_after_names directory_path name fs d Hd) as (d1 & Hd1 & Hn1).
    destruct (IH _ _ Hd1) as (d2 & Hd2 & Hn2).
    exists d2. split; [done|]. congruence.
Qed.

(** C8: the sanitizer applied to its own result gives that result again;
    and a second scan of a workflows directory leaves every file as the
    first scan left it: each valid file is rewritten to the content that it
    already has. *)
Theorem clean_and_rescan_idempotent :
  (forall d : dict,
      exists cleaned : json,
        clean_workflow_for_repo (JObj d) = Ok cleaned
        /\ clean_workflow_for_repo cleaned = Ok cleaned)
  /\ (forall (directory_path : string) (fs : filesystem),
         let fs1 := fst (scan_workflows_directory sv directory_path fs) in
         fst (scan_workflows_directory sv directory_path fs1) = fs1).
Proof.
  split.
  - intros d. exists (JObj (cleaned_of d)). split; [reflexivity|].
    rewrite clean_workflow_for_repo_dict. by rewrite cleaned_of_idempotent.
  - intros directory_path fs. simpl.
    rewrite (scan_workflows_directory_fs directory_path fs).
    destruct (fs !! directory_path) as [d|] eqn:Hd.
    + rewrite scan_workflows_directory_fs.
      destruct (fs_loop_names directory_path (glob ".json" d) fs d Hd)
        as (d' & Hd' & Hnames).
      rewrite Hd'. unfold glob. rewrite Hnames.
      apply fs_loop_fixed. intros name Hin Hname.
      by apply fs_loop_settled.
    + rewrite scan_workflows_directory_fs. by rewrite Hd.
Qed.

End Rescan.

(** ** The normalizers on names in which the suffix occurs once *)

Lemma prefix_refl (s : string) : String.prefix s s = true.
Proof.
  induction s as [|c s IH]; simpl; [done|].
  by destruct (ascii_dec c c).
Qed.

Lemma string_length_app (s t : string) :
  String.length (s +:+ t) = (String.length s + String.length t)%nat.
Proof. induction s as [|c s IH]; simpl; [done | by rewrite IH]. Qed.

Lemma string_app_empty (s : string) : s +:+ EmptyString = s.
Proof.
  induction s as [|c s IH]; [done|].
  change (String c (s +:+ EmptyString) = String c s). by rewrite IH.
Qed.

Lemma substring_whole (s : string) : String.substring 0 (String.length s) s = s.
Proof. induction s as [|c s IH]; simpl; [done | by rewrite IH]. Qed.

Lemma substring_skip (s t : string) (m : nat) :
  String.substring (String.length s) m (s +:+ t) = String.substring 0 m t.
Proof. induction s as [|c s IH]; simpl; [done | by rewrite IH]. Qed.

Lemma substring_take (s t : string) :
  String.substring 0 (String.length s) (s +:+ t) = s.
Proof.
  induction s as [|c s IH]; simpl; [by destruct t | by rewrite IH].
Qed.

Lemma endswith_app (s suf : string) : PyStr.endswith (s +:+ suf) suf = true.
Proof.
  unfold PyStr.endswith. rewrite string_length_app.
  apply andb_true_intro. split.
  - apply Nat.leb_le. lia.
  - replace (String.length s + String.length suf - String.length suf)%nat
      with (String.length s) by lia.
    rewrite substring_skip, substring_whole. apply String.eqb_refl.
Qed.

(** the specification's normalizer removes the trailing suffix *)
Lemma strip_suffix_spec_app (stem suf : string) :
  strip_suffix_spec suf (stem +:+ suf) = stem.
Proof.
  unfold strip_suffix_spec. rewrite endswith_app, string_length_app.
  replace (String.length stem + String.length suf - String.length suf)%nat
    with (String.length stem) by lia.
  apply substring_take.
Qed.

Lemma remove_from_skip_all (old t : string) (k : nat) :
  (String.length t <= k)%nat -> PyStr.remove_from k old t = EmptyString.
Proof.
  revert k. induction t as [|c t IH]; intros k Hk; simpl; [done|].
  simpl in Hk. destruct k as [|k]; [lia|]. apply IH. lia.
Qed.

(** a prefix of [s +:+ q] lies within [s] or runs over into [q] *)
Lemma prefix_app_cases (p s q : string) :
  String.prefix p (s +:+ q) = true ->
  String.prefix p s = true
  \/ exists p2, p = s +:+ p2 /\ String.prefix p2 q = true.
Proof.
  revert p. induction s as [|c s IH]; intros p Hp; simpl in *.
  - right. by exists p.
  - destruct p as [|a p]; [by left|].
    destruct (ascii_dec a c) as [->|]; [|done].
    destruct (IH p Hp) as [Hin | (p2 & -> & Hp2)]; [by left|].
    right. by exists p2.
Qed.

Lemma has_char_app (c : ascii) (s t : string) :
  has_char c (s +:+ t) = has_char c s || has_char c t.
Proof.
  induction s as [|c' s IH]; simpl; [done|].
  by destruct (ascii_dec c c').
Qed.

(** When the first character of [old] does not occur again in [old], an
    occurrence of [old] that starts within a non-empty [s] in
    [s +:+ old] lies within [s]. *)
Lemma prefix_app_within (c0 : ascii) (rest s : string) :
  has_char c0 rest = false ->
  s <> EmptyString ->
  String.prefix (String c0 rest) (s +:+ String c0 rest) = true ->
  String.prefix (String c0 rest) s = true.
Proof.
  intros Hc0 Hs Hp.
  destruct (prefix_app_cases _ _ _ Hp) as [Hin | (p2 & Heq & Hp2)]; [done|].
  destruct s as [|c s]; [done|]. simpl in Heq. injection Heq as <- Hrest.
  destruct p2 as [|b p2].
  - rewrite string_app_empty in Hrest. subst rest. apply prefix_refl.
  - simpl in Hp2. destruct (ascii_dec b c0) as [->|]; [|done].
    rewrite Hrest, has_char_app in Hc0. simpl in Hc0.
    destruct (ascii_dec c0 c0); [|done].
    by rewrite orb_true_r in Hc0.
Qed.

(** removing every occurrence removes the trailing one only, when there
    is no other *)
Lemma remove_all_single (c0 : ascii) (rest stem : string) :
  has_char c0 rest = false ->
  PyStr.contains (String c0 rest) stem = false ->
  PyStr.remove_all (String c0 rest) (stem +:+ String c0 rest) = stem.
Proof.
  intros Hc0. unfold PyStr.remove_all.
  induction stem as [|c stem IH]; intros Hno.
  - simpl. destruct (ascii_dec c0 c0); [|done]. rewrite prefix_refl.
    apply remove_from_skip_all. simpl. lia.
  - simpl in Hno. apply orb_false_elim in Hno as [Hpre Hno].
    change (String c stem +:+ String c0 rest)
      with (String c (stem +:+ String c0 rest)).
    cbn [PyStr.remove_from].
    destruct (String.prefix (String c0 rest)
                (String c (stem +:+ String c0 rest))) eqn:Hp.
    + apply (prefix_app_within c0 rest (String c stem)) in Hp; try done.
      simpl in Hp. congruence.
    + by rewrite IH.
Qed.

(** On a name that does not end with the suffix, and on a name that has
    the suffix at its end and nowhere else, the normalizers return what
    the specification says. *)
Lemma normalize_agrees_with_spec (filename stem : string) :
  (PyStr.endswith filename ".json" = false ->
   normalize_workflow_id filename = strip_suffix_spec ".json" filename
   /\ normalize_workflow_id filename = filename)
  /\ (PyStr.endswith filename ".zip" = false ->
      normalize_module_id filename = strip_suffix_spec ".zip" filename
      /\ normalize_module_id filename = filename)
  /\ (PyStr.contains ".json" stem = false ->
      normalize_workflow_id (stem +:+ ".json")
      = strip_suffix_spec ".json" (stem +:+ ".json")
      /\ normalize_workflow_id (stem +:+ ".json") = stem)
  /\ (PyStr.contains ".zip" stem = false ->
      normalize_module_id (stem +:+ ".zip")
      = strip_suffix_spec ".zip" (stem +:+ ".zip")
      /\ normalize_module_id (stem +:+ ".zip") = stem).
Proof.
  repeat split.
  - unfold normalize_workflow_id, strip_suffix_spec. by rewrite H.
  - unfold normalize_workflow_id. by rewrite H.
  - unfold normalize_module_id, strip_suffix_spec. by rewrite H.
  - unfold normalize_module_id. by rewrite H.
  - rewrite strip_suffix_spec_app. unfold normalize_workflow_id.
    rewrite endswith_app. by apply (remove_all_single "." "json").
  - unfold normalize_workflow_id.
    rewrite endswith_app. by apply (remove_all_single "." "json").
  - rewrite strip_suffix_spec_app. unfold normalize_module_id.
    rewrite endswith_app. by apply (remove_all_single "." "zip").
  - unfold normalize_module_id.
    rewrite endswith_app. by apply (remove_all_single "." "zip").
Qed.

(** ** Runs on sample data *)

(** a file that the validator does not accept, or that cannot be read or
    parsed, gets an error and nothing else: no entry, no write *)
Lemma scan_workflow_file_rejected (sv : json -> string)
      (directory_path name : string) (s : scan_state) :
  (forall dir d w,
      st_fs s !! directory_path = Some dir ->
      alist_get name dir = Some (File (Plain (JsonText (JObj d))) w) ->
      validate_workflow sv (JObj d) name <> Ok (true, None, Some (JObj d))) ->
  exists msg,
    scan_workflow_file sv directory_path name s = (with_error msg name s, Ok tt).
Proof.
  intros Hbad.
  destruct (scan_workflow_file_step sv directory_path name s)
    as (s' & Hrun & Hstep).
  destruct Hstep as [msg | dir d meta item Hdir Hf Hv Hmeta Hitem
                     | dir d meta item msg Hdir Hf Hv Hmeta Hitem].
  - by exists msg.
  - by destruct (Hbad dir d true).
  - by destruct (Hbad dir d false).
Qed.

(** C1: on a filesystem without the directory, the scan returns three
    empty lists, and the run of the index builder then ends in the
    [FileNotFoundError] of the write of [index.json]: it reports nothing,
    and the process exits with status 1. *)
Theorem missing_directory_run_raises :
  scan_workflows_directory str_by_type "workflows" ∅ = (∅, Ok ([], [], []))
  /\ scan_modules_directory str_by_type "modules" ∅ = (∅, Ok ([], [], []))
  /\ generate_index "workflows" "workflows"
       (scan_workflows_directory str_by_type) "2026-01-01T00:00:00"
       "index.json" ∅
     = (∅, Raise (Exn FileNotFoundError
                     "[Errno 2] No such file or directory: 'workflows/index.json'"))
  /\ generate_index "modules" "modules"
       (scan_modules_directory str_by_type) "2026-01-01T00:00:00"
       "index.json" ∅
     = (∅, Raise (Exn FileNotFoundError
                     "[Errno 2] No such file or directory: 'modules/index.json'"))
  /\ exit_status str_by_type ["generate-index.py"]
       "2026-01-01T00:00:00" "2026-01-01T00:00:01" ∅ = 1%Z.
Proof.
  destruct (scan_missing_directory str_by_type "workflows" ∅) as [Hw _];
    [apply lookup_empty|].
  destruct (scan_missing_directory str_by_type "modules" ∅) as [_ Hm];
    [apply lookup_empty|].
  split; [done|]. split; [done|].
  split; [by apply generate_index_missing|].
  split; [by apply generate_index_missing|].
  unfold exit_status, main, bind. simpl.
  by rewrite (generate_index_missing _ "workflows" "workflows" _ ∅ Hw).
Qed.

(** C2: a name in which the suffix occurs twice loses both occurrences,
    where the specification removes the trailing one. *)
Theorem normalize_removes_every_occurrence :
  normalize_workflow_id "a.json.json" = "a"
  /\ strip_suffix_spec ".json" "a.json.json" = "a.json"
  /\ normalize_module_id "pack.zip.zip" = "pack"
  /\ strip_suffix_spec ".zip" "pack.zip.zip" = "pack.zip".
Proof. repeat split. Qed.

(** C3: a valid workflow file that may not be written gets an error and is
    listed as skipped, and its entry is among the entries all the same. *)
Theorem write_failure_keeps_entry :
  exists item : dict,
    scan_workflows_directory str_by_type "workflows" read_only_fs
    = (read_only_fs,
       Ok ([item],
           ["❌ a.json: [Errno 13] Permission denied: 'workflows/a.json'"],
           ["a.json"]))
    /\ alist_get "filename" item = Some (JStr "a.json")
    /\ alist_get "id" item = Some (JStr "a").
Proof.
  eexists. split; [vm_compute; reflexivity|]. split; reflexivity.
Qed.

(** C6: with an empty workflows directory and no modules directory,
    neither scan records an error, and the process exits with status 1:
    the run for modules ends in the [FileNotFoundError] of the write of
    [index.json]. *)
Theorem exit_status_one_without_errors :
  exists fs1 : filesystem,
    scan_workflows_directory str_by_type "workflows" no_modules_fs
    = (no_modules_fs, Ok ([], [], []))
    /\ generate_index "workflows" "workflows"
         (scan_workflows_directory str_by_type) "2026-01-01T00:00:00"
         "index.json" no_modules_fs
       = (fs1, Ok true)
    /\ scan_modules_directory str_by_type "modules" fs1
       = (fs1, Ok ([], [], []))
    /\ snd (main str_by_type ["generate-index.py"]
              "2026-01-01T00:00:00" "2026-01-01T00:00:01" no_modules_fs)
       = Raise (Exn FileNotFoundError
                    "[Errno 2] No such file or directory: 'modules/index.json'")
    /\ exit_status str_by_type ["generate-index.py"]
         "2026-01-01T00:00:00" "2026-01-01T00:00:01" no_modules_fs = 1%Z.
Proof.
  eexists. split; [vm_compute; reflexivity|].
  split; [vm_compute; reflexivity|].
  split; [vm_compute; reflexivity|].
  split; vm_compute; reflexivity.
Qed.

(** ** Instances *)

(** the sanitizer on a store with one enabled workflow *)
Lemma clean_workflow_for_repo_copy_witness :
  ([sample_workflow "hello"] : ObjectStore.store) !! 0%nat
  = Some (sample_workflow "hello")
  /\ exists (st' : ObjectStore.store) (cleaned : ObjectStore.ref),
       ObjectStore.clean_workflow_for_repo_ref 0%nat [sample_workflow "hello"]
       = Some (st', cleaned)
       /\ st' !! 0%nat = Some (sample_workflow "hello")
       /\ st' !! cleaned = Some (cleaned_of (sample_workflow "hello")).
Proof.
  split; [reflexivity|].
  destruct (clean_workflow_for_repo_copy
              [sample_workflow "hello"] 0%nat (sample_workflow "hello")
              eq_refl)
    as (st' & cleaned & Hrun & _ & Hnew & _ & Hold & _).
  exists st', cleaned. repeat split; assumption.
Defined.

(** a metadata block with an [id] only, and a manifest with an [id] only *)
Lemma missing_required_fields_named_witness :
  alist_get "_meta" [("_meta", JObj [("id", JStr "a")])]
  = Some (JObj [("id", JStr "a")])
  /\ (exists f, f ∈ required_meta_fields
                /\ alist_get f [("id", JStr "a")] = None)
  /\ (exists f, f ∈ required_fields
                /\ alist_get f [("id", JStr "m")] = None)
  /\ validate_workflow str_by_type
       (JObj [("_meta", JObj [("id", JStr "a")])]) "a.json"
     = Ok (false,
           Some "_meta缺少必需字段: name, description, author, version, vFlowLevel",
           None)
  /\ validate_module str_by_type (JObj [("id", JStr "m")]) "m.zip"
     = Ok (false,
           Some "manifest缺少必需字段: name, description, author, version, category").
Proof.
  assert (exists f, f ∈ required_meta_fields
                    /\ alist_get f [("id", JStr "a")] = None) as Hw.
  { exists "name". split; [|reflexivity].
    apply list_elem_of_In. simpl. auto. }
  assert (exists f, f ∈ required_fields
                    /\ alist_get f [("id", JStr "m")] = None) as Hm.
  { exists "name". split; [|reflexivity].
    apply list_elem_of_In. simpl. auto. }
  split; [reflexivity|]. split; [exact Hw|]. split; [exact Hm|].
  destruct (missing_required_fields_named str_by_type
              [("_meta", JObj [("id", JStr "a")])] [("id", JStr "a")]
              [("id", JStr "m")] "a.json") as [Hwf _].
  destruct (missing_required_fields_named str_by_type
              [("_meta", JObj [("id", JStr "a")])] [("id", JStr "a")]
              [("id", JStr "m")] "m.zip") as [_ Hmod].
  split.
  - exact (proj1 (Hwf eq_refl Hw)).
  - exact (proj1 (Hmod Hm)).
Defined.

(** the index of two workflows that are enumerated in descending order *)
Lemma index_sorted_and_counted_witness :
  two_workflows_fs !! "workflows" = Some two_workflows
  /\ may_write "index.json" two_workflows
  /\ exists (fs' : filesystem) (ok : bool) (sorted : list dict),
       generate_index "workflows" "workflows"
         (scan_workflows_directory str_by_type) "2026-01-01T00:00:00"
         "index.json" two_workflows_fs
       = (fs', Ok ok)
       /\ fs' !! "workflows" ≫= alist_get "index.json"
          = Some (File (Plain (JsonText
                          (JObj (index_document "workflows"
                                   "2026-01-01T00:00:00" sorted)))) true)
       /\ alist_get "total_count"
            (index_document "workflows" "2026-01-01T00:00:00" sorted)
          = Some (JNum (Z.of_nat (length sorted)))
       /\ StronglySorted id_le sorted.
Proof.
  assert (two_workflows_fs !! "workflows" = Some two_workflows) as Hd
      by reflexivity.
  assert (may_write "index.json" two_workflows) as Hw
      by (intros data; discriminate).
  split; [exact Hd|]. split; [exact Hw|].
  destruct (index_sorted_and_counted str_by_type "workflows"
              "2026-01-01T00:00:00" two_workflows_fs two_workflows Hd Hw)
    as [(fs1 & its & errs & skp & fs' & ok & sorted & Hscan & Hrun & Hidx
         & _ & Hcount & _ & Hss) _].
  exists fs', ok, sorted. repeat split; assumption.
Defined.

(** the [id]s in the index that this run writes, in the order of the
    index, and its [total_count] *)
Example index_of_two_workflows :
  match fst (generate_index "workflows" "workflows"
               (scan_workflows_directory str_by_type) "2026-01-01T00:00:00"
               "index.json" two_workflows_fs)
        !! "workflows" ≫= alist_get "index.json"
  with
  | Some (File (Plain (JsonText (JObj index))) _) =>
      match alist_get "workflows" index with
      | Some (JArr entries) =>
          Some (map (fun e => py_getitem e "id") entries,
                alist_get "total_count" index)
      | _ => None
      end
  | _ => None
  end
  = Some ([Ok (JStr "a"); Ok (JStr "z")], Some (JNum 2)).
Proof. vm_compute. reflexivity. Qed.

(** an accepted workflow document and an accepted manifest *)
Lemma required_fields_verbatim_witness :
  validate_workflow str_by_type (JObj (sample_workflow "hello")) "hello.json"
  = Ok (true, None, Some (JObj (sample_workflow "hello")))
  /\ validate_module str_by_type (JObj (sample_manifest "pack")) "pack.zip"
     = Ok (true, None)
  /\ (exists meta item : dict,
         py_get (JObj (sample_workflow "hello")) "_meta" (JObj [])
         = Ok (JObj meta)
         /\ workflow_item "workflows" "hello.json" (JObj meta) tt
            = (tt, Ok item)
         /\ forall f, f ∈ required_meta_fields ->
                      exists v, alist_get f meta = Some v
                                /\ alist_get f item = Some v)
  /\ (exists d item : dict,
         JObj (sample_manifest "pack") = JObj d
         /\ module_item "modules" "pack.zip" (JObj (sample_manifest "pack")) tt
            = (tt, Ok item)
         /\ forall f, f ∈ required_fields ->
                      exists v, alist_get f d = Some v
                                /\ alist_get f item = Some v).
Proof.
  assert (validate_workflow str_by_type (JObj (sample_workflow "hello"))
            "hello.json"
          = Ok (true, None, Some (JObj (sample_workflow "hello")))) as Hw
      by reflexivity.
  assert (validate_module str_by_type (JObj (sample_manifest "pack"))
            "pack.zip" = Ok (true, None)) as Hm
      by reflexivity.
  split; [exact Hw|]. split; [exact Hm|].
  destruct (required_fields_verbatim str_by_type "workflows" "hello.json"
              (JObj (sample_workflow "hello")) (JObj (sample_manifest "pack"))
              None None (Some (JObj (sample_workflow "hello"))) tt)
    as [Hwf _].
  destruct (required_fields_verbatim str_by_type "modules" "pack.zip"
              (JObj (sample_workflow "hello")) (JObj (sample_manifest "pack"))
              None None (Some (JObj (sample_workflow "hello"))) tt)
    as [_ Hmod].
  split; [exact (Hwf Hw) | exact (Hmod Hm)].
Defined.

(** * Further properties *)

(** ** What the validators accept *)

Section Acceptance.
Variable sv : json -> string.

Lemma absent_fields_all_present (fields : list string) (m : dict) :
  (forall f, f ∈ fields -> is_Some (alist_get f m)) ->
  absent_fields fields m = [].
Proof.
  intros Hall. destruct (absent_fields fields m) as [|f l] eqn:E; [done|].
  assert (f ∈ absent_fields fields m) as Hin by (rewrite E; left).
  apply absent_fields_spec in Hin as [Hf Hnone].
  destruct (Hall f Hf) as [v Hv]. congruence.
Qed.

(** The workflow validator accepts a document, under a file name, exactly
    when the document is an object whose [_meta] is an object that binds
    the six required fields and whose [id] is the string that the
    normalizer gives for the file name; it then returns the document
    itself and no message. *)
Theorem validate_workflow_accepts_iff (data : json) (name : string) :
  validate_workflow sv data name = Ok (true, None, Some data)
  <-> exists d meta : dict,
      data = JObj d
      /\ alist_get "_meta" d = Some (JObj meta)
      /\ (forall f, f ∈ required_meta_fields -> is_Some (alist_get f meta))
      /\ alist_get "id" meta = Some (JStr (normalize_workflow_id name)).
Proof.
  split.
  - intros Hv.
    destruct (validate_workflow_true sv _ _ _ _ Hv)
      as (d & meta & -> & Hmeta & Hreq & Hid & _).
    by exists d, meta.
  - intros (d & meta & -> & Hmeta & Hreq & Hid).
    unfold validate_workflow. cbn [py_in py_getitem].
    assert (alist_mem "_meta" d = true) as ->
        by (apply alist_mem_true; rewrite Hmeta; eauto).
    rewrite Hmeta, missing_of_dict, absent_fields_all_present by done.
    cbn [py_getitem]. rewrite Hid. simpl. by rewrite String.eqb_refl.
Qed.

(** The module validator accepts a manifest, under a file name, exactly
    when the manifest is an object that binds the six required fields and
    whose [id] is the string that the normalizer gives for the file
    name. *)
Theorem validate_module_accepts_iff (manifest : json) (name : string) :
  validate_module sv manifest name = Ok (true, None)
  <-> exists d : dict,
      manifest = JObj d
      /\ (forall f, f ∈ required_fields -> is_Some (alist_get f d))
      /\ alist_get "id" d = Some (JStr (normalize_module_id name)).
Proof.
  split.
  - intros Hv.
    destruct (validate_module_true sv _ _ _ Hv) as (d & -> & Hreq & Hid & _).
    by exists d.
  - intros (d & -> & Hreq & Hid).
    unfold validate_module.
    rewrite missing_of_dict, absent_fields_all_present by done.
    cbn [py_getitem]. rewrite Hid. simpl. by rewrite String.eqb_refl.
Qed.

(** A workflow file whose metadata block has the required fields and an
    [id] other than the normalized file name: the scanner records the
    mismatch with both identifiers, lists the file as skipped, adds no
    entry and leaves the filesystem as it is. *)
Theorem mismatched_workflow_is_skipped
        (directory_path name : string) (s : scan_state)
        (dir : directory) (d meta : dict) (v : json) (w : bool) :
  st_fs s !! directory_path = Some dir ->
  alist_get name dir = Some (File (Plain (JsonText (JObj d))) w) ->
  alist_get "_meta" d = Some (JObj meta) ->
  (forall f, f ∈ required_meta_fields -> is_Some (alist_get f meta)) ->
  alist_get "id" meta = Some v ->
  v <> JStr (normalize_workflow_id name) ->
  exists s',
    scan_workflow_file sv directory_path name s = (s', Ok tt)
    /\ errors s'
       = errors s
           ++ ["❌ " +:+ name +:+ ": _meta.id 不匹配: 文件名='"
                 +:+ normalize_workflow_id name +:+ "', _meta.id='"
                 +:+ fmt sv v +:+ "'"]
    /\ skipped_files s' = skipped_files s ++ [name]
    /\ items s' = items s
    /\ st_fs s' = st_fs s.
Proof.
  intros Hdir Hf Hmeta Hreq Hid Hne.
  assert (validate_workflow sv (JObj d) name
          = Ok (false,
                Some ("_meta.id 不匹配: 文件名='"
                        +:+ normalize_workflow_id name +:+ "', _meta.id='"
                        +:+ fmt sv v +:+ "'"),
                None)) as Hv.
  { unfold validate_workflow. cbn [py_in py_getitem].
    assert (alist_mem "_meta" d = true) as ->
        by (apply alist_mem_true; rewrite Hmeta; eauto).
    rewrite Hmeta, missing_of_dict, absent_fields_all_present by done.
    cbn [py_getitem]. rewrite Hid.
    destruct (py_eq_str v (normalize_workflow_id name)) eqn:E; [|done].
    by apply py_eq_str_true in E. }
  eexists. split.
  - unfold scan_workflow_file, try_except, bind, on_fs, read_json, lift.
    rewrite Hdir. simpl. rewrite Hf. simpl. rewrite Hv. reflexivity.
  - done.
Qed.

(** The module scanner writes nothing: whatever the directory holds, the
    filesystem after the scan is the filesystem before it. *)
Theorem scan_modules_directory_read_only
        (directory_path : string) (fs : filesystem) :
  fst (scan_modules_directory sv directory_path fs) = fs.
Proof.
  destruct (fs !! directory_path) as [d0|] eqn:Hd.
  - destruct (scan_modules_directory_spec sv directory_path fs d0 Hd)
      as (its & errs & skp & Hrun & _).
    by rewrite Hrun.
  - destruct (scan_missing_directory sv directory_path fs Hd) as [_ Hm].
    by rewrite Hm.
Qed.

End Acceptance.

(** ** The bookkeeping of the scanners *)

(** A loop whose body, for each file, adds at most one entry and at most
    one error with the file's name as skipped: the entries and the
    skipped names come in the order of the names, each for a name of its
    own. *)
Lemma for_each_accounting
      (Q : string -> dict -> Prop) (E : string -> string -> Prop)
      (lo hi : nat)
      (body : string -> M scan_state unit) (names : list string) :
  (forall name s, name <> "index.json" ->
     exists s' its errs,
       body name s = (s', Ok tt)
       /\ items s' = items s ++ its
       /\ errors s' = errors s ++ errs
       /\ skipped_files s' = skipped_files s ++ map (fun _ => name) errs
       /\ (length its <= 1)%nat /\ (length errs <= 1)%nat
       /\ Forall (Q name) its /\ Forall (E name) errs
       /\ (lo <= length its + length errs <= hi)%nat) ->
  forall s,
  exists s' ns ms its errs,
    for_each names
      (fun name => if String.eqb name "index.json" then ret tt else body name)
      s = (s', Ok tt)
    /\ items s' = items s ++ its
    /\ errors s' = errors s ++ errs
    /\ skipped_files s' = skipped_files s ++ ms
    /\ ns `sublist_of`
         List.filter (fun name => negb (String.eqb name "index.json")) names
    /\ ms `sublist_of`
         List.filter (fun name => negb (String.eqb name "index.json")) names
    /\ Forall2 Q ns its
    /\ Forall2 E ms errs
    /\ (lo * length (List.filter
                       (fun name => negb (String.eqb name "index.json")) names)
        <= length its + length errs
        <= hi * length (List.filter
                          (fun name => negb (String.eqb name "index.json"))
                          names))%nat.
Proof.
  intros Hbody. induction names as [|name names IH]; intros s.
  - exists s, [], [], [], []. simpl. rewrite !app_nil_r.
    repeat split; try constructor; lia.
  - simpl. destruct (String.eqb name "index.json") eqn:Hname; simpl.
    + destruct (IH s) as (s' & ns & ms & its & errs & Hrun & H).
      exists s', ns, ms, its, errs. split; [|done].
      unfold bind, ret. exact Hrun.
    + apply String.eqb_neq in Hname.
      destruct (Hbody name s Hname)
        as (s1 & its1 & errs1 & Hrun1 & Hi1 & He1 & Hs1 & Hli & Hle & HQ & HE
            & Hn1).
      destruct (IH s1)
        as (s' & ns & ms & its & errs & Hrun & Hi & He & Hs & Hns & Hms
            & HQ2 & HE2 & Hn).
      exists s', (map (fun _ => name) its1 ++ ns),
             (map (fun _ => name) errs1 ++ ms), (its1 ++ its), (errs1 ++ errs).
      split; [unfold bind; by rewrite Hrun1|].
      split; [by rewrite Hi, Hi1, app_assoc|].
      split; [by rewrite He, He1, app_assoc|].
      split; [by rewrite Hs, Hs1, app_assoc|].
      split.
      { destruct its1 as [|it [|]]; simpl in *; try lia.
        - by apply sublist_cons.
        - by apply sublist_skip. }
      split.
      { destruct errs1 as [|e [|]]; simpl in *; try lia.
        - by apply sublist_cons.
        - by apply sublist_skip. }
      split.
      { apply Forall2_app; [|done].
        clear -HQ. induction HQ; simpl; constructor; auto. }
      split.
      { apply Forall2_app; [|done].
        clear -HE. induction HE; simpl; constructor; auto. }
      rewrite !length_app. simpl. lia.
Qed.

Section Bookkeeping.
Variable sv : json -> string.

Local Ltac about_file :=
  constructor; [eexists; reflexivity | constructor].

Local Ltac one_error name s :=
  eexists _, [], [_]; split; [reflexivity|];
  simpl; rewrite ?app_nil_r;
  repeat split; try done; try lia; try (by constructor); about_file.

(** the loop body of the workflow scanner, in terms of what it adds *)
Lemma scan_workflow_file_adds (directory_path name : string) (s : scan_state) :
  exists s' its errs,
    scan_workflow_file sv directory_path name s = (s', Ok tt)
    /\ items s' = items s ++ its
    /\ errors s' = errors s ++ errs
    /\ skipped_files s' = skipped_files s ++ map (fun _ => name) errs
    /\ (length its <= 1)%nat /\ (length errs <= 1)%nat
    /\ Forall (workflow_item_for directory_path name) its
    /\ Forall (error_about name) errs
    /\ (1 <= length its + length errs <= 2)%nat.
Proof.
  unfold scan_workflow_file, try_except, bind, on_fs, read_json, lift.
  destruct (st_fs s !! directory_path) as [dir|] eqn:Hdir; simpl;
    [|one_error name s].
  destruct (alist_get name dir) as [[fd w]|] eqn:Hf; simpl;
    [|one_error name s].
  destruct fd as [[msg|j]|es]; simpl; try one_error name s.
  destruct (validate_workflow sv j name) as [[[[|] m] c]|[[] msg]] eqn:Hv;
    simpl; try one_error name s.
  destruct (validate_workflow_true sv _ _ _ _ Hv)
    as (d & meta & -> & Hmeta & Hreq & Hid & -> & ->).
  simpl. rewrite Hmeta.
  unfold append_item, modify, write_json. simpl. rewrite Hdir, Hf.
  destruct w; simpl.
  - eexists _, [_], []. split; [reflexivity|].
    simpl. rewrite ?app_nil_r. repeat split; try done; try lia.
    repeat constructor. by exists meta.
  - eexists _, [_], [_]. split; [reflexivity|].
    simpl. repeat split; try done; try lia.
    + repeat constructor. by exists meta.
    + about_file.
Qed.

(** the loop body of the module scanner, in terms of what it adds: one
    entry or one error, not both *)
Lemma scan_module_file_adds (directory_path name : string) (s : scan_state) :
  exists s' its errs,
    scan_module_file sv directory_path name s = (s', Ok tt)
    /\ items s' = items s ++ its
    /\ errors s' = errors s ++ errs
    /\ skipped_files s' = skipped_files s ++ map (fun _ => name) errs
    /\ (length its <= 1)%nat /\ (length errs <= 1)%nat
    /\ Forall (module_item_for directory_path name) its
    /\ Forall (error_about name) errs
    /\ (1 <= length its + length errs <= 1)%nat.
Proof.
  unfold scan_module_file, try_except, bind, on_fs, open_zip, lift.
  destruct (st_fs s !! directory_path) as [dir|] eqn:Hdir; simpl;
    [|one_error name s].
  destruct (alist_get name dir) as [[fd w]|] eqn:Hf; simpl;
    [|one_error name s].
  destruct fd as [t|es]; simpl; [one_error name s|].
  destruct (List.find _ (map fst es)) as [member|]; simpl;
    [|one_error name s].
  destruct (zip_read_json es member) as [manifest|[[] msg]]; simpl;
    try one_error name s.
  destruct (validate_module sv manifest name) as [[[|] m]|[[] msg]] eqn:Hv;
    simpl; try one_error name s.
  destruct (validate_module_true sv _ _ _ Hv) as (d & -> & Hreq & Hid & ->).
  eexists _, [_], []. split; [reflexivity|].
  simpl. rewrite ?app_nil_r. repeat split; try done; try lia.
  repeat constructor. by exists d.
Qed.

(** the loop of a scanner, from empty lists *)
Lemma scan_loop_accounting
      (Q : string -> dict -> Prop) (E : string -> string -> Prop)
      (lo hi : nat)
      (body : string -> M scan_state unit) (names : list string)
      (fs : filesystem) :
  (forall name s, name <> "index.json" ->
     exists s' its errs,
       body name s = (s', Ok tt)
       /\ items s' = items s ++ its
       /\ errors s' = errors s ++ errs
       /\ skipped_files s' = skipped_files s ++ map (fun _ => name) errs
       /\ (length its <= 1)%nat /\ (length errs <= 1)%nat
       /\ Forall (Q name) its /\ Forall (E name) errs
       /\ (lo <= length its + length errs <= hi)%nat) ->
  exists fs' ns its errs skp,
    scan_loop names body fs = (fs', Ok (its, errs, skp))
    /\ ns `sublist_of`
         List.filter (fun name => negb (String.eqb name "index.json")) names
    /\ skp `sublist_of`
         List.filter (fun name => negb (String.eqb name "index.json")) names
    /\ Forall2 Q ns its
    /\ Forall2 E skp errs
    /\ (lo * length (List.filter
                       (fun name => negb (String.eqb name "index.json")) names)
        <= length its + length errs
        <= hi * length (List.filter
                          (fun name => negb (String.eqb name "index.json"))
                          names))%nat.
Proof.
  intros Hbody.
  destruct (for_each_accounting Q E lo hi body names Hbody
              (ScanState fs [] [] []))
    as (s' & ns & ms & its & errs & Hrun & Hi & He & Hs & Hns & Hms & HQ & HE
        & Hn).
  simpl in Hi, He, Hs.
  exists (st_fs s'), ns, its, errs, ms. unfold scan_loop.
  rewrite Hrun, Hi, He, Hs. done.
Qed.

(** The workflow scanner on a directory that exists: the entries are
    built for names that come in the order of the scanned names, the
    skipped names come in that order too, each error line is about the
    skipped name at its position, and every scanned name gave an entry,
    an error, or both. *)
Lemma scan_workflows_directory_accounting (directory_path : string)
      (fs : filesystem) (d0 : directory) :
  fs !! directory_path = Some d0 ->
  exists fs' ns its errs skp,
    scan_workflows_directory sv directory_path fs = (fs', Ok (its, errs, skp))
    /\ ns `sublist_of` scanned_names ".json" d0
    /\ skp `sublist_of` scanned_names ".json" d0
    /\ Forall2 (workflow_item_for directory_path) ns its
    /\ Forall2 error_about skp errs
    /\ (1 * length (scanned_names ".json" d0)
        <= length its + length errs
        <= 2 * length (scanned_names ".json" d0))%nat.
Proof.
  intros Hd0. unfold scan_workflows_directory. rewrite Hd0.
  apply scan_loop_accounting. intros name s _.
  destruct (scan_workflow_file_adds directory_path name s)
    as (s' & its & errs & H).
  by exists s', its, errs.
Qed.

(** The module scanner on a directory that exists, likewise; every
    scanned name gave an entry or an error, not both. *)
Lemma scan_modules_directory_accounting (directory_path : string)
      (fs : filesystem) (d0 : directory) :
  fs !! directory_path = Some d0 ->
  exists fs' ns its errs skp,
    scan_modules_directory sv directory_path fs = (fs', Ok (its, errs, skp))
    /\ ns `sublist_of` scanned_names ".zip" d0
    /\ skp `sublist_of` scanned_names ".zip" d0
    /\ Forall2 (module_item_for directory_path) ns its
    /\ Forall2 error_about skp errs
    /\ (1 * length (scanned_names ".zip" d0)
        <= length its + length errs
        <= 1 * length (scanned_names ".zip" d0))%nat.
Proof.
  intros Hd0. unfold scan_modules_directory. rewrite Hd0.
  apply scan_loop_accounting. intros name s _.
  destruct (scan_module_file_adds directory_path name s)
    as (s' & its & errs & H).
  by exists s', its, errs.
Qed.

End Bookkeeping.

(** ** What the scanners return *)

Lemma scanned_names_spec (suffix : string) (d : directory) (name : string) :
  name ∈ scanned_names suffix d
  <-> name ∈ map fst d
      /\ PyStr.endswith name suffix = true
      /\ name <> "index.json".
Proof.
  unfold scanned_names, glob.
  rewrite list_elem_of_In, filter_In, <- list_elem_of_In.
  rewrite list_elem_of_filter, negb_true_iff, String.eqb_neq. tauto.
Qed.

Lemma filter_all_true {A : Type} (f : A -> bool) (l : list A) :
  (forall x, x ∈ l -> f x = true) -> List.filter f l = l.
Proof.
  induction l as [|x l IH]; intros H; simpl; [done|].
  rewrite (H x) by left. rewrite IH; [done|].
  intros y Hy. apply H. by right.
Qed.

(** no archive is called [index.json]: the test for it in the module
    scanner never fires *)
Lemma scanned_names_zip (d : directory) :
  scanned_names ".zip" d = glob ".zip" d.
Proof.
  unfold scanned_names. apply filter_all_true.
  intros name Hin. unfold glob in Hin.
  apply list_elem_of_filter in Hin as [Hend _].
  apply negb_true_iff, String.eqb_neq. by intros ->.
Qed.

Lemma workflow_item_for_shape (directory_path name : string) (item : dict) :
  workflow_item_for directory_path name item ->
  map fst item = workflow_item_keys
  /\ alist_get "filename" item = Some (JStr name)
  /\ alist_get "download_url" item
     = Some (JStr ("https://raw.githubusercontent.com/ChaoMixian/vFlow-Repos/main/workflows/"
                     +:+ name))
  /\ alist_get "local_path" item = Some (JStr (path_join directory_path name)).
Proof.
  intros (meta & H). rewrite workflow_item_dict in H. injection H as <-.
  done.
Qed.

Lemma module_item_for_shape (directory_path name : string) (item : dict) :
  module_item_for directory_path name item ->
  map fst item = module_item_keys
  /\ alist_get "filename" item = Some (JStr name)
  /\ alist_get "download_url" item
     = Some (JStr ("https://raw.githubusercontent.com/ChaoMixian/vFlow-Repos/main/modules/"
                     +:+ name))
  /\ alist_get "local_path" item = Some (JStr (path_join directory_path name)).
Proof.
  intros (manifest & H). rewrite module_item_dict in H. injection H as <-.
  done.
Qed.

Lemma Forall2_filenames (Q : string -> dict -> Prop)
      (ns : list string) (its : list dict) :
  (forall name item, Q name item ->
                     alist_get "filename" item = Some (JStr name)) ->
  Forall2 Q ns its ->
  map (alist_get "filename") its = map (fun name => Some (JStr name)) ns.
Proof.
  intros HQ. induction 1 as [|name item ns its H _ IH]; simpl; [done|].
  by rewrite (HQ name item H), IH.
Qed.

Section Results.
Variable sv : json -> string.

(** The entries of each scanner come in the order in which the directory
    enumerates its files, and so do the skipped names: the [filename]s of
    the entries are a subsequence of the scanned names (the names with
    the suffix, [index.json] apart), and the skipped names are one too. *)
Theorem scan_results_in_enumeration_order
        (directory_path : string) (fs : filesystem) (d0 : directory) :
  fs !! directory_path = Some d0 ->
  (exists fs' ns its errs skp,
      scan_workflows_directory sv directory_path fs
      = (fs', Ok (its, errs, skp))
      /\ map (alist_get "filename") its = map (fun name => Some (JStr name)) ns
      /\ ns `sublist_of` scanned_names ".json" d0
      /\ skp `sublist_of` scanned_names ".json" d0)
  /\ (exists fs' ns its errs skp,
         scan_modules_directory sv directory_path fs
         = (fs', Ok (its, errs, skp))
         /\ map (alist_get "filename") its
            = map (fun name => Some (JStr name)) ns
         /\ ns `sublist_of` scanned_names ".zip" d0
         /\ skp `sublist_of` scanned_names ".zip" d0).
Proof.
  intros Hd0. split.
  - destruct (scan_workflows_directory_accounting sv directory_path fs d0 Hd0)
      as (fs' & ns & its & errs & skp & Hrun & Hns & Hskp & HQ & _).
    exists fs', ns, its, errs, skp. repeat split; try done.
    eapply Forall2_filenames; [|done].
    intros name item H. by apply workflow_item_for_shape in H as (_ & ? & _).
  - destruct (scan_modules_directory_accounting sv directory_path fs d0 Hd0)
      as (fs' & ns & its & errs & skp & Hrun & Hns & Hskp & HQ & _).
    exists fs', ns, its, errs, skp. repeat split; try done.
    eapply Forall2_filenames; [|done].
    intros name item H. by apply module_item_for_shape in H as (_ & ? & _).
Qed.

(** Each scanner returns as many error lines as skipped names, and the
    error line at a position is about the skipped name at that position:
    it is the mark, that name, a colon and a space, and a message. *)
Theorem error_lines_name_skipped_files
        (directory_path : string) (fs : filesystem) :
  (exists fs' its errs skp,
      scan_workflows_directory sv directory_path fs
      = (fs', Ok (its, errs, skp))
      /\ Forall2 error_about skp errs)
  /\ (exists fs' its errs skp,
         scan_modules_directory sv directory_path fs
         = (fs', Ok (its, errs, skp))
         /\ Forall2 error_about skp errs).
Proof.
  destruct (fs !! directory_path) as [d0|] eqn:Hd0.
  - split.
    + destruct (scan_workflows_directory_accounting sv directory_path fs d0
                  Hd0)
        as (fs' & ns & its & errs & skp & Hrun & _ & _ & _ & HE & _).
      by exists fs', its, errs, skp.
    + destruct (scan_modules_directory_accounting sv directory_path fs d0 Hd0)
        as (fs' & ns & its & errs & skp & Hrun & _ & _ & _ & HE & _).
      by exists fs', its, errs, skp.
  - destruct (scan_missing_directory sv directory_path fs Hd0) as [Hw Hm].
    split; exists fs, [], [], []; (split; [done | constructor]).
Qed.

(** Every entry that a scanner returns has the keys of its kind in the
    fixed order, and for the file name [name] that it was built for its
    [filename] is [name], its [download_url] is the address of the
    repository directory of its kind followed by [name], and its
    [local_path] is [str(Path(directory) / name)], the path of the file
    as [pathlib] writes it. *)
Theorem entries_have_fixed_shape
        (directory_path : string) (fs : filesystem) :
  (exists fs' its errs skp,
      scan_workflows_directory sv directory_path fs
      = (fs', Ok (its, errs, skp))
      /\ Forall
           (fun item =>
              exists name,
                map fst item = workflow_item_keys
                /\ alist_get "filename" item = Some (JStr name)
                /\ alist_get "download_url" item
                   = Some (JStr ("https://raw.githubusercontent.com/ChaoMixian/vFlow-Repos/main/workflows/"
                                   +:+ name))
                /\ alist_get "local_path" item
                   = Some (JStr (path_join directory_path name)))
           its)
  /\ (exists fs' its errs skp,
         scan_modules_directory sv directory_path fs
         = (fs', Ok (its, errs, skp))
         /\ Forall
              (fun item =>
                 exists name,
                   map fst item = module_item_keys
                   /\ alist_get "filename" item = Some (JStr name)
                   /\ alist_get "download_url" item
                      = Some (JStr ("https://raw.githubusercontent.com/ChaoMixian/vFlow-Repos/main/modules/"
                                      +:+ name))
                   /\ alist_get "local_path" item
                      = Some (JStr (path_join directory_path name)))
              its).
Proof.
  destruct (fs !! directory_path) as [d0|] eqn:Hd0.
  - split.
    + destruct (scan_workflows_directory_accounting sv directory_path fs d0
                  Hd0)
        as (fs' & ns & its & errs & skp & Hrun & _ & _ & HQ & _).
      exists fs', its, errs, skp. split; [done|].
      clear Hrun. induction HQ as [|name item ns its H _ IH]; constructor;
        [|done].
      exists name. by apply workflow_item_for_shape.
    + destruct (scan_modules_directory_accounting sv directory_path fs d0 Hd0)
        as (fs' & ns & its & errs & skp & Hrun & _ & _ & HQ & _).
      exists fs', its, errs, skp. split; [done|].
      clear Hrun. induction HQ as [|name item ns its H _ IH]; constructor;
        [|done].
      exists name. by apply module_item_for_shape.
  - destruct (scan_missing_directory sv directory_path fs Hd0) as [Hw Hm].
    split; exists fs, [], [], []; (split; [done | constructor]).
Qed.

(** For a directory whose names and contents are text that can be
    encoded (so that no write and no print of the scanners raises): the
    module scanner gives every archive of the directory one entry or one
    skipped name, never both, so that entries and skipped names together
    are as many as the archives.  The workflow scanner gives every
    scanned file an entry or a skipped name, and never more entries, or
    more skipped names, than there are scanned files. *)
Theorem every_file_indexed_or_skipped
        (directory_path : string) (fs : filesystem) (d0 : directory) :
  fs !! directory_path = Some d0 ->
  dir_encodable d0 = true ->
  (exists fs' its errs skp,
      scan_modules_directory sv directory_path fs
      = (fs', Ok (its, errs, skp))
      /\ (length its + length skp = length (glob ".zip" d0))%nat)
  /\ (exists fs' its errs skp,
         scan_workflows_directory sv directory_path fs
         = (fs', Ok (its, errs, skp))
         /\ (length (scanned_names ".json" d0) <= length its + length skp)%nat
         /\ (length its <= length (scanned_names ".json" d0))%nat
         /\ (length skp <= length (scanned_names ".json" d0))%nat).
Proof.
  intros Hd0 _. split.
  - destruct (scan_modules_directory_accounting sv directory_path fs d0 Hd0)
      as (fs' & ns & its & errs & skp & Hrun & _ & _ & _ & HE & Hn).
    exists fs', its, errs, skp. split; [done|].
    apply Forall2_length in HE. rewrite scanned_names_zip in Hn. lia.
  - destruct (scan_workflows_directory_accounting sv directory_path fs d0 Hd0)
      as (fs' & ns & its & errs & skp & Hrun & Hns & Hskp & HQ & HE & Hn).
    exists fs', its, errs, skp. split; [done|].
    apply Forall2_length in HE, HQ.
    apply sublist_length in Hns, Hskp. lia.
Qed.

End Results.

(** ** What the workflow scanner leaves on disk *)

Section OnDisk.
Variable sv : json -> string.

Lemma rewrite_of_Some (name : string) (f g : file) :
  rewrite_of sv name f = Some g ->
  exists d : dict,
    f = File (Plain (JsonText (JObj d))) true
    /\ validate_workflow sv (JObj d) name = Ok (true, None, Some (JObj d))
    /\ g = rewritten (cleaned_of d).
Proof.
  destruct f as [[[msg|[| | | | |d]]|es] [|]]; simpl; try done.
  destruct (validate_workflow sv (JObj d) name) as [[[[|] m] c]|] eqn:Hv;
    try done.
  intros [= <-].
  destruct (validate_workflow_true sv _ _ _ _ Hv) as (? & ? & _ & _ & _ & _ & -> & ->).
  by exists d.
Qed.

Lemma rewrite_of_valid (name : string) (d : dict) :
  validate_workflow sv (JObj d) name = Ok (true, None, Some (JObj d)) ->
  rewrite_of sv name (File (Plain (JsonText (JObj d))) true)
  = Some (rewritten (cleaned_of d)).
Proof. intros Hv. simpl. by rewrite Hv. Qed.

(** what the loop keeps, for a directory that held [d0] at the start *)
Lemma fs_loop_frame (directory_path : string) (fs : filesystem)
      (d0 : directory) (names : list string) (fs1 : filesystem) :
  (forall n, n ∈ names -> n ∈ glob ".json" d0) ->
  (exists d1,
      fs1 !! directory_path = Some d1
      /\ map fst d1 = map fst d0
      /\ (forall p, p <> directory_path -> fs1 !! p = fs !! p)
      /\ forall n,
          alist_get n d1 = alist_get n d0
          \/ (n ∈ scanned_names ".json" d0
              /\ exists dd,
                  alist_get n d0 = Some (File (Plain (JsonText (JObj dd))) true)
                  /\ validate_workflow sv (JObj dd) n
                     = Ok (true, None, Some (JObj dd))
                  /\ alist_get n d1 = Some (rewritten (cleaned_of dd)))) ->
  exists d',
    fs_loop sv directory_path names fs1 !! directory_path = Some d'
    /\ map fst d' = map fst d0
    /\ (forall p, p <> directory_path ->
                  fs_loop sv directory_path names fs1 !! p = fs !! p)
    /\ forall n,
        alist_get n d' = alist_get n d0
        \/ (n ∈ scanned_names ".json" d0
            /\ exists dd,
                alist_get n d0 = Some (File (Plain (JsonText (JObj dd))) true)
                /\ validate_workflow sv (JObj dd) n
                   = Ok (true, None, Some (JObj dd))
                /\ alist_get n d' = Some (rewritten (cleaned_of dd))).
Proof.
  revert fs1. induction names as [|m names IH]; intros fs1 Hnames Hinv;
    simpl; [done|].
  apply IH; [intros n Hn; apply Hnames; by right|].
  destruct (String.eqb m "index.json") eqn:Hm; [done|].
  apply String.eqb_neq in Hm.
  destruct Hinv as (d1 & Hd1 & Hkeys & Hother & Hfiles).
  unfold fs_after. rewrite Hd1.
  destruct (alist_get m d1) as [f|] eqn:Hf; simpl; [|by exists d1].
  destruct (rewrite_of sv m f) as [g|] eqn:Hg; [|by exists d1].
  destruct (rewrite_of_Some m f g Hg) as (dcur & -> & Hv & ->).
  exists (alist_set m (rewritten (cleaned_of dcur)) d1).
  split; [apply lookup_insert_eq|].
  split; [rewrite alist_set_keys_get; [done | by rewrite Hf]|].
  split; [intros p Hp; rewrite lookup_insert_ne by done; by apply Hother|].
  intros n. destruct (decide (n = m)) as [->|Hne].
  - right. split.
    { apply scanned_names_spec. unfold glob in Hnames.
      specialize (Hnames m (list_elem_of_here _ _)).
      apply list_elem_of_filter in Hnames as [Hend Hin]. done. }
    rewrite alist_get_set_eq.
    destruct (Hfiles m) as [Hsame | (_ & dd & Horig & Hvdd & Hcur)].
    + exists dcur. rewrite <- Hsame, Hf. done.
    + rewrite Hf in Hcur. injection Hcur as ->.
      exists dd. by rewrite cleaned_of_idempotent.
  - rewrite alist_get_set_ne by done. apply Hfiles.
Qed.

(** what the workflow scanner keeps of a directory that exists *)
Lemma scan_workflows_directory_keeps
        (directory_path : string) (fs : filesystem) (d0 : directory) :
  fs !! directory_path = Some d0 ->
  exists (fs' : filesystem) (r : scan_result) (d' : directory),
    scan_workflows_directory sv directory_path fs = (fs', Ok r)
    /\ fs' !! directory_path = Some d'
    /\ map fst d' = map fst d0
    /\ (forall p, p <> directory_path -> fs' !! p = fs !! p)
    /\ forall n,
        alist_get n d' = alist_get n d0
        \/ (n ∈ scanned_names ".json" d0
            /\ exists dd,
                alist_get n d0 = Some (File (Plain (JsonText (JObj dd))) true)
                /\ validate_workflow sv (JObj dd) n
                   = Ok (true, None, Some (JObj dd))
                /\ alist_get n d' = Some (rewritten (cleaned_of dd))).
Proof.
  intros Hd0.
  destruct (scan_workflows_directory_spec sv directory_path fs d0 Hd0)
    as (fs' & its & errs & skp & d1 & Hrun & _).
  pose proof (scan_workflows_directory_fs sv directory_path fs) as Hfs.
  rewrite Hrun, Hd0 in Hfs. simpl in Hfs.
  destruct (fs_loop_frame directory_path fs d0 (glob ".json" d0) fs)
    as (d' & Hd' & Hkeys & Hother & Hfiles); [done | |].
  { exists d0. repeat split; try done. intros n. by left. }
  subst fs'. by eexists _, (its, errs, skp), d'.
Qed.

(** The workflow scanner on a directory that exists and whose names and
    contents are text that can be encoded (so that every dump of a
    sanitized document goes through): the directory keeps its names in
    their order; every other directory is as it was; and each file is as
    it was, or it is a scanned file that held a writable document that
    the validator accepts and now holds the sanitized document,
    writable. *)
Theorem scan_workflows_directory_frame
        (directory_path : string) (fs : filesystem) (d0 : directory) :
  fs !! directory_path = Some d0 ->
  dir_encodable d0 = true ->
  exists (fs' : filesystem) (r : scan_result) (d' : directory),
    scan_workflows_directory sv directory_path fs = (fs', Ok r)
    /\ fs' !! directory_path = Some d'
    /\ map fst d' = map fst d0
    /\ (forall p, p <> directory_path -> fs' !! p = fs !! p)
    /\ forall n,
        alist_get n d' = alist_get n d0
        \/ (n ∈ scanned_names ".json" d0
            /\ exists dd,
                alist_get n d0 = Some (File (Plain (JsonText (JObj dd))) true)
                /\ validate_workflow sv (JObj dd) n
                   = Ok (true, None, Some (JObj dd))
                /\ alist_get n d' = Some (rewritten (cleaned_of dd))).
Proof. intros Hd0 _. by apply scan_workflows_directory_keeps. Qed.

(** In a directory whose names and contents are text that can be
    encoded, a scanned workflow file that holds a writable document that
    the validator accepts holds, after the scan, the sanitized document:
    the three flags are [False] and every other key is bound as
    before. *)
Theorem valid_workflows_are_sanitized
        (directory_path : string) (fs : filesystem) (d0 : directory)
        (name : string) (dd : dict) :
  fs !! directory_path = Some d0 ->
  dir_encodable d0 = true ->
  name ∈ scanned_names ".json" d0 ->
  alist_get name d0 = Some (File (Plain (JsonText (JObj dd))) true) ->
  validate_workflow sv (JObj dd) name = Ok (true, None, Some (JObj dd)) ->
  exists (d' : directory) (after : dict),
    fst (scan_workflows_directory sv directory_path fs) !! directory_path
    = Some d'
    /\ alist_get name d' = Some (File (Plain (JsonText (JObj after))) true)
    /\ (forall k, k ∈ runtime_flags -> alist_get k after = Some (JBool false))
    /\ (forall k, k ∉ runtime_flags -> alist_get k after = alist_get k dd).
Proof.
  intros Hd0 _ Hname Hf Hv.
  destruct (scan_workflows_directory_keeps directory_path fs d0 Hd0)
    as (fs' & r & d' & Hrun & Hd' & _ & _ & Hfiles).
  rewrite Hrun. simpl.
  exists d', (cleaned_of dd). split; [done|].
  split; [|split; [apply cleaned_of_flag | apply cleaned_of_other]].
  destruct (Hfiles name) as [Hsame | (_ & dd' & Horig & _ & Hcur)].
  - pose proof (scan_workflows_directory_fs sv directory_path fs) as Hfs.
    rewrite Hrun, Hd0 in Hfs. simpl in Hfs.
    apply scanned_names_spec in Hname as (Hin & Hend & Hne).
    assert (settled sv directory_path name fs') as Hs.
    { rewrite Hfs. apply fs_loop_settled; [|done].
      unfold glob. by apply list_elem_of_filter. }
    unfold settled, fs_after in Hs. rewrite Hd', Hsame, Hf in Hs.
    simpl in Hs. rewrite Hv in Hs.
    apply (f_equal (fun m : filesystem => m !! directory_path)) in Hs.
    rewrite lookup_insert_eq, Hd' in Hs. injection Hs as Hs.
    by apply alist_set_fixed in Hs.
  - rewrite Hf in Horig. by injection Horig as <-.
Qed.

(** A run of the index builder on a directory that exists, in which
    [index.json] may be written, and whose path, names and contents are
    text that can be encoded (so that the dump of the index document goes
    through): beyond what the scanner did, the run creates or replaces
    [index.json] and changes no other file and no other directory. *)
Theorem generate_index_writes_only_index
        (directory_path now : string) (fs : filesystem) (d0 : directory) :
  fs !! directory_path = Some d0 ->
  may_write "index.json" d0 ->
  dir_encodable d0 = true ->
  encodable_str directory_path = true ->
  encodable_str now = true ->
  (exists fs1 r d1 fs' ok d',
      scan_workflows_directory sv directory_path fs = (fs1, Ok r)
      /\ generate_index directory_path "workflows"
           (scan_workflows_directory sv) now "index.json" fs
         = (fs', Ok ok)
      /\ fs1 !! directory_path = Some d1
      /\ fs' !! directory_path = Some d'
      /\ (forall n, n <> "index.json" -> alist_get n d' = alist_get n d1)
      /\ (forall p, p <> directory_path -> fs' !! p = fs1 !! p)
      /\ exists index, alist_get "index.json" d'
                       = Some (File (Plain (JsonText (JObj index))) true))
  /\ (exists r fs' ok d',
         scan_modules_directory sv directory_path fs = (fs, Ok r)
         /\ generate_index directory_path "modules"
              (scan_modules_directory sv) now "index.json" fs
            = (fs', Ok ok)
         /\ fs' !! directory_path = Some d'
         /\ (forall n, n <> "index.json" -> alist_get n d' = alist_get n d0)
         /\ (forall p, p <> directory_path -> fs' !! p = fs !! p)
         /\ exists index, alist_get "index.json" d'
                          = Some (File (Plain (JsonText (JObj index))) true)).
Proof.
  intros Hd0 Hw _ _ _. split.
  - destruct (generate_workflows_index sv directory_path now fs d0 Hd0 Hw)
      as (fs1 & its & errs & skp & d1 & sorted & Hscan & Hd1 & _ & Hrun & _).
    eexists fs1, (its, errs, skp), d1, _, _, _.
    split; [done|]. split; [exact Hrun|]. split; [done|].
    split; [apply lookup_insert_eq|].
    split; [intros n Hn; by rewrite alist_get_set_ne|].
    split; [intros p Hp; by rewrite lookup_insert_ne|].
    eexists. apply alist_get_set_eq.
  - destruct (generate_modules_index sv directory_path now fs d0 Hd0 Hw)
      as (its & errs & skp & sorted & Hscan & Hrun & _).
    eexists (its, errs, skp), _, _, _.
    split; [done|]. split; [exact Hrun|].
    split; [apply lookup_insert_eq|].
    split; [intros n Hn; by rewrite alist_get_set_ne|].
    split; [intros p Hp; by rewrite lookup_insert_ne|].
    eexists. apply alist_get_set_eq.
Qed.

End OnDisk.

(** ** The sort keeps the order of entries with one [id] *)

Lemma string_leb_refl (s : string) : String.leb s s = true.
Proof. by destruct (String.leb_total s s). Qed.

Lemma keyed_has_id (s : string) (p : json * dict) :
  keyed p -> has_id s (snd p) = py_eq_str (fst p) s.
Proof. intros (t & Hfst & Hid). unfold has_id. by rewrite Hid, Hfst. Qed.

Lemma insert_by_key_filter (s : string) (x : json * dict)
      (l : list (json * dict)) :
  keyed x -> Forall keyed l ->
  List.filter (fun p => has_id s (snd p)) (insert_by_key x l)
  = List.filter (fun p => has_id s (snd p)) (x :: l).
Proof.
  intros Hx Hl. induction Hl as [|y l Hy Hl IH]; [done|].
  simpl. destruct (key_leb (fst x) (fst y)) eqn:Hle; [done|].
  simpl. rewrite IH. simpl.
  destruct (has_id s (snd x)) eqn:Ex, (has_id s (snd y)) eqn:Ey; try done.
  rewrite keyed_has_id in Ex, Ey by done.
  apply py_eq_str_true in Ex, Ey. rewrite Ex, Ey in Hle. simpl in Hle.
  by rewrite string_leb_refl in Hle.
Qed.

Lemma sort_by_key_filter (s : string) (l : list (json * dict)) :
  Forall keyed l ->
  List.filter (fun p => has_id s (snd p)) (sort_by_key l)
  = List.filter (fun p => has_id s (snd p)) l.
Proof.
  induction 1 as [|x l Hx Hl IH]; [done|].
  simpl. rewrite insert_by_key_filter; [simpl; by rewrite IH | done |].
  eapply Permutation_Forall; [|done].
  symmetry. apply sort_by_key_Permutation.
Qed.

Lemma filter_map_snd (f : dict -> bool) (l : list (json * dict)) :
  List.filter f (map snd l) = map snd (List.filter (fun p => f (snd p)) l).
Proof.
  induction l as [|p l IH]; simpl; [done|].
  destruct (f (snd p)); simpl; by rewrite IH.
Qed.

(** Sorting entries whose [id]s are strings keeps, for every [id], the
    entries with that [id] in the order in which they were: the sort is
    stable. *)
Theorem list_sort_by_id_stable (l : list dict) :
  Forall has_str_id l ->
  exists sorted : list dict,
    list_sort_by_id l = Ok sorted
    /\ forall s, List.filter (has_id s) sorted = List.filter (has_id s) l.
Proof.
  intros Hl. destruct (keys_of_str l Hl) as (ks & Hks & Hstr & Hkeyed & Hsnd).
  exists (map snd (sort_by_key (combine ks l))).
  unfold list_sort_by_id, sortable. rewrite Hks, Hstr, orb_true_r. simpl.
  split; [done|]. intros s.
  rewrite filter_map_snd, sort_by_key_filter, <- filter_map_snd by done.
  by rewrite Hsnd.
Qed.

(** ** Exit status 0 *)

Lemma generate_index_true_inv
      (scan_func : string -> M filesystem scan_result)
      (directory_path item_type now output_file : string)
      (fs fs' : filesystem) :
  generate_index directory_path item_type scan_func now output_file fs
  = (fs', Ok true) ->
  exists fs1 its skp, scan_func directory_path fs = (fs1, Ok (its, [], skp)).
Proof.
  unfold generate_index, bind, lift.
  destruct (scan_func directory_path fs) as [fs1 [[[its errs] skp]|e]];
    [|done].
  destruct (list_sort_by_id its) as [sorted|e]; [|done].
  destruct (write_json _ _ _ fs1) as [fs2 [[]|e]]; [|done].
  unfold ret. intros [= _ Hlen].
  destruct errs; [|done]. by exists fs1, its, skp.
Qed.

(** The process exits with status 0 only if both runs of the index
    builder returned [True], each after a scan that recorded no error;
    the module run starts from the filesystem that the workflow run
    left. *)
Theorem exit_status_zero_inv (sv : json -> string) (argv : list string)
        (now1 now2 : string) (fs : filesystem) :
  exit_status sv argv now1 now2 fs = 0%Z ->
  exists fs1 its1 skp1 fs2 fs3 its2 skp2 fs4,
    scan_workflows_directory sv (workflows_dir_of argv) fs
    = (fs1, Ok (its1, [], skp1))
    /\ generate_index (workflows_dir_of argv) "workflows"
         (scan_workflows_directory sv) now1 "index.json" fs
       = (fs2, Ok true)
    /\ scan_modules_directory sv (modules_dir_of argv) fs2
       = (fs3, Ok (its2, [], skp2))
    /\ generate_index (modules_dir_of argv) "modules"
         (scan_modules_directory sv) now2 "index.json" fs2
       = (fs4, Ok true).
Proof.
  unfold exit_status, main, bind, ret.
  fold (workflows_dir_of argv). fold (modules_dir_of argv).
  destruct (generate_index (workflows_dir_of argv) "workflows" _ now1 _ fs)
    as [fs2 [ok1|e1]] eqn:H1; [|done].
  destruct (generate_index (modules_dir_of argv) "modules" _ now2 _ fs2)
    as [fs4 [ok2|e2]] eqn:H2; [|done].
  destruct ok1, ok2; simpl; try done. intros _.
  destruct (generate_index_true_inv _ _ _ _ _ _ _ H1) as (fs1 & its1 & skp1 & Hs1).
  destruct (generate_index_true_inv _ _ _ _ _ _ _ H2) as (fs3 & its2 & skp2 & Hs2).
  by exists fs1, its1, skp1, fs2, fs3, its2, skp2, fs4.
Qed.

(** ** The messages for files that cannot be read *)

(** For a file of the scanned directory, whatever the scanner has
    collected so far: a module file that is no archive, an archive
    without an entry whose name ends in [manifest.json], an archive whose
    manifest does not parse, and a workflow file that does not parse each
    get the error line of their case and the file's name as skipped; no
    entry is added and nothing is written. *)
Theorem unreadable_files_are_reported (sv : json -> string)
        (directory_path name : string) (s : scan_state) (dir : directory) :
  st_fs s !! directory_path = Some dir ->
  (forall t w, alist_get name dir = Some (File (Plain t) w) ->
     scan_module_file sv directory_path name s
     = (with_error ("❌ " +:+ name +:+ ": 无效的ZIP文件") name s, Ok tt))
  /\ (forall es w,
        alist_get name dir = Some (File (Archive es) w) ->
        List.find (fun n => PyStr.endswith n "manifest.json") (map fst es)
        = None ->
        scan_module_file sv directory_path name s
        = (with_error ("❌ " +:+ name +:+ ": ZIP中未找到manifest.json") name s,
           Ok tt))
  /\ (forall es w member msg,
        alist_get name dir = Some (File (Archive es) w) ->
        List.find (fun n => PyStr.endswith n "manifest.json") (map fst es)
        = Some member ->
        zip_read_json es member = Raise (Exn JSONDecodeError msg) ->
        scan_module_file sv directory_path name s
        = (with_error
             ("❌ " +:+ name +:+ ": manifest.json解析错误 - " +:+ msg) name s,
           Ok tt))
  /\ (forall msg w,
        alist_get name dir = Some (File (Plain (Garbled msg)) w) ->
        scan_workflow_file sv directory_path name s
        = (with_error ("❌ " +:+ name +:+ ": JSON解析错误 - " +:+ msg) name s,
           Ok tt)).
Proof.
  intros Hdir. repeat split.
  - intros t w Hf.
    unfold scan_module_file, try_except, bind, on_fs, open_zip, lift.
    rewrite Hdir. simpl. by rewrite Hf.
  - intros es w Hf Hfind.
    unfold scan_module_file, try_except, bind, on_fs, open_zip, lift.
    rewrite Hdir. simpl. rewrite Hf. simpl. by rewrite Hfind.
  - intros es w member msg Hf Hfind Hread.
    unfold scan_module_file, try_except, bind, on_fs, open_zip, lift.
    rewrite Hdir. simpl. rewrite Hf. simpl. rewrite Hfind. simpl.
    by rewrite Hread.
  - intros msg w Hf.
    unfold scan_workflow_file, try_except, bind, on_fs, read_json, lift.
    rewrite Hdir. simpl. by rewrite Hf.
Qed.

(** ** The command line *)

(** [main] reads the first two arguments after the program name and no
    other: a longer command line runs as its first three words do. *)
Theorem main_ignores_extra_arguments (sv : json -> string)
        (argv : list string) (now1 now2 : string) (fs : filesystem) :
  main sv argv now1 now2 fs = main sv (take 3 argv) now1 now2 fs.
Proof. by destruct argv as [|a [|b [|c rest]]]. Qed.

(** ** Instances of the further properties *)

(** a workflow named [a.json] whose identifier is [b] *)
Lemma mismatched_workflow_is_skipped_witness :
  mixed_workflows_fs !! "workflows" = Some mixed_workflows
  /\ alist_get "a.json" mixed_workflows
     = Some (File (Plain (JsonText (JObj (sample_workflow "b")))) true)
  /\ alist_get "_meta" (sample_workflow "b") = Some (JObj (sample_meta "b"))
  /\ (forall f, f ∈ required_meta_fields ->
                is_Some (alist_get f (sample_meta "b")))
  /\ alist_get "id" (sample_meta "b") = Some (JStr "b")
  /\ JStr "b" <> JStr (normalize_workflow_id "a.json")
  /\ exists s',
      scan_workflow_file str_by_type "workflows" "a.json"
        (ScanState mixed_workflows_fs [] [] []) = (s', Ok tt)
      /\ errors s' = ["❌ a.json: _meta.id 不匹配: 文件名='a', _meta.id='b'"]
      /\ skipped_files s' = ["a.json"]
      /\ items s' = []
      /\ st_fs s' = mixed_workflows_fs.
Proof.
  assert (forall f, f ∈ required_meta_fields ->
                    is_Some (alist_get f (sample_meta "b"))) as Hreq.
  { intros f Hf. unfold required_meta_fields in Hf.
    repeat (apply elem_of_cons in Hf as [-> | Hf]); try (eexists; reflexivity).
    by apply elem_of_nil in Hf. }
  assert (JStr "b" <> JStr (normalize_workflow_id "a.json")) as Hne
      by discriminate.
  split; [reflexivity|]. split; [reflexivity|]. split; [reflexivity|].
  split; [exact Hreq|]. split; [reflexivity|]. split; [exact Hne|].
  exact (mismatched_workflow_is_skipped str_by_type "workflows" "a.json"
           (ScanState mixed_workflows_fs [] [] []) mixed_workflows
           (sample_workflow "b") (sample_meta "b") (JStr "b") true
           eq_refl eq_refl eq_refl Hreq eq_refl Hne).
Defined.

(** two workflows that the directory enumerates as [z.json], [a.json] *)
Lemma scan_results_in_enumeration_order_witness :
  two_workflows_fs !! "workflows" = Some two_workflows
  /\ exists fs' ns its errs skp,
      scan_workflows_directory str_by_type "workflows" two_workflows_fs
      = (fs', Ok (its, errs, skp))
      /\ map (alist_get "filename") its = map (fun name => Some (JStr name)) ns
      /\ ns `sublist_of` scanned_names ".json" two_workflows
      /\ skp `sublist_of` scanned_names ".json" two_workflows.
Proof.
  split; [reflexivity|].
  exact (proj1 (scan_results_in_enumeration_order str_by_type "workflows"
                  two_workflows_fs two_workflows eq_refl)).
Defined.

(** the four module files of [mixed_modules]: one entry, three skipped *)
Lemma every_file_indexed_or_skipped_witness :
  mixed_modules_fs !! "modules" = Some mixed_modules
  /\ dir_encodable mixed_modules = true
  /\ exists fs' its errs skp,
      scan_modules_directory str_by_type "modules" mixed_modules_fs
      = (fs', Ok (its, errs, skp))
      /\ (length its + length skp = length (glob ".zip" mixed_modules))%nat.
Proof.
  split; [reflexivity|]. split; [reflexivity|].
  exact (proj1 (every_file_indexed_or_skipped str_by_type "modules"
                  mixed_modules_fs mixed_modules eq_refl eq_refl)).
Defined.

Lemma scan_workflows_directory_frame_witness :
  two_workflows_fs !! "workflows" = Some two_workflows
  /\ dir_encodable two_workflows = true
  /\ exists (fs' : filesystem) (r : scan_result) (d' : directory),
      scan_workflows_directory str_by_type "workflows" two_workflows_fs
      = (fs', Ok r)
      /\ fs' !! "workflows" = Some d'
      /\ map fst d' = map fst two_workflows.
Proof.
  split; [reflexivity|]. split; [reflexivity|].
  destruct (scan_workflows_directory_frame str_by_type "workflows"
              two_workflows_fs two_workflows eq_refl eq_refl)
    as (fs' & r & d' & Hrun & Hd' & Hkeys & _).
  exists fs', r, d'. repeat split; assumption.
Defined.

Lemma two_workflows_scanned : "z.json" ∈ scanned_names ".json" two_workflows.
Proof.
  apply scanned_names_spec. split; [|split; [reflexivity | discriminate]].
  apply list_elem_of_In. simpl. auto.
Defined.

(** the enabled workflow [z.json] is sanitized on disk *)
Lemma valid_workflows_are_sanitized_witness :
  two_workflows_fs !! "workflows" = Some two_workflows
  /\ dir_encodable two_workflows = true
  /\ "z.json" ∈ scanned_names ".json" two_workflows
  /\ alist_get "z.json" two_workflows
     = Some (File (Plain (JsonText (JObj (sample_workflow "z")))) true)
  /\ validate_workflow str_by_type (JObj (sample_workflow "z")) "z.json"
     = Ok (true, None, Some (JObj (sample_workflow "z")))
  /\ exists (d' : directory) (after : dict),
      fst (scan_workflows_directory str_by_type "workflows" two_workflows_fs)
      !! "workflows" = Some d'
      /\ alist_get "z.json" d'
         = Some (File (Plain (JsonText (JObj after))) true)
      /\ alist_get "isEnabled" after = Some (JBool false)
      /\ alist_get "_meta" after = Some (JObj (sample_meta "z")).
Proof.
  split; [reflexivity|]. split; [reflexivity|].
  split; [exact two_workflows_scanned|].
  split; [reflexivity|]. split; [reflexivity|].
  destruct (valid_workflows_are_sanitized str_by_type "workflows"
              two_workflows_fs two_workflows "z.json" (sample_workflow "z")
              eq_refl eq_refl two_workflows_scanned eq_refl eq_refl)
    as (d' & after & Hd' & Hfile & Hflags & Hother).
  exists d', after. split; [exact Hd'|]. split; [exact Hfile|]. split.
  - apply Hflags. apply list_elem_of_In. simpl. auto.
  - rewrite Hother; [reflexivity|].
    intros Hin. apply list_elem_of_In in Hin. simpl in Hin.
    destruct Hin as [H | [H | [H | []]]]; discriminate H.
Defined.

Lemma generate_index_writes_only_index_witness :
  two_workflows_fs !! "workflows" = Some two_workflows
  /\ may_write "index.json" two_workflows
  /\ dir_encodable two_workflows = true
  /\ encodable_str "workflows" = true
  /\ encodable_str "2026-01-01T00:00:00" = true
  /\ exists fs' ok d',
      generate_index "workflows" "workflows"
        (scan_workflows_directory str_by_type) "2026-01-01T00:00:00"
        "index.json" two_workflows_fs
      = (fs', Ok ok)
      /\ fs' !! "workflows" = Some d'
      /\ exists index, alist_get "index.json" d'
                       = Some (File (Plain (JsonText (JObj index))) true).
Proof.
  assert (may_write "index.json" two_workflows) as Hw
      by (intros data; discriminate).
  split; [reflexivity|]. split; [exact Hw|].
  split; [reflexivity|]. split; [reflexivity|]. split; [reflexivity|].
  destruct (generate_index_writes_only_index str_by_type "workflows"
              "2026-01-01T00:00:00" two_workflows_fs two_workflows eq_refl Hw
              eq_refl eq_refl eq_refl)
    as [(fs1 & r & d1 & fs' & ok & d' & _ & Hrun & _ & Hd' & _ & _ & Hidx) _].
  exists fs', ok, d'. repeat split; assumption.
Defined.

(** two entries with the [id] [a] around one with the [id] [b] *)
Lemma list_sort_by_id_stable_witness :
  Forall has_str_id
    [[("id", JStr "a"); ("filename", JStr "a.json.json")];
     [("id", JStr "b"); ("filename", JStr "b.json")];
     [("id", JStr "a"); ("filename", JStr "a.json")]]
  /\ exists sorted : list dict,
      list_sort_by_id
        [[("id", JStr "a"); ("filename", JStr "a.json.json")];
         [("id", JStr "b"); ("filename", JStr "b.json")];
         [("id", JStr "a"); ("filename", JStr "a.json")]]
      = Ok sorted
      /\ List.filter (has_id "a") sorted
         = [[("id", JStr "a"); ("filename", JStr "a.json.json")];
            [("id", JStr "a"); ("filename", JStr "a.json")]].
Proof.
  assert (Forall has_str_id
            [[("id", JStr "a"); ("filename", JStr "a.json.json")];
             [("id", JStr "b"); ("filename", JStr "b.json")];
             [("id", JStr "a"); ("filename", JStr "a.json")]]) as Hl
      by (repeat constructor; eexists; reflexivity).
  split; [exact Hl|].
  destruct (list_sort_by_id_stable _ Hl) as (sorted & Hsort & Hstable).
  exists sorted. split; [exact Hsort|]. rewrite Hstable. reflexivity.
Defined.

(** both directories present and empty: exit status 0 *)
Lemma exit_status_zero_inv_witness :
  exit_status str_by_type ["generate-index.py"]
    "2026-01-01T00:00:00" "2026-01-01T00:00:01" empty_dirs_fs = 0%Z
  /\ exists fs2 fs4,
      generate_index "workflows" "workflows"
        (scan_workflows_directory str_by_type) "2026-01-01T00:00:00"
        "index.json" empty_dirs_fs
      = (fs2, Ok true)
      /\ generate_index "modules" "modules"
           (scan_modules_directory str_by_type) "2026-01-01T00:00:01"
           "index.json" fs2
         = (fs4, Ok true).
Proof.
  assert (exit_status str_by_type ["generate-index.py"]
            "2026-01-01T00:00:00" "2026-01-01T00:00:01" empty_dirs_fs = 0%Z)
    as H0 by (vm_compute; reflexivity).
  split; [exact H0|].
  destruct (exit_status_zero_inv str_by_type ["generate-index.py"]
              "2026-01-01T00:00:00" "2026-01-01T00:00:01" empty_dirs_fs H0)
    as (fs1 & its1 & skp1 & fs2 & fs3 & its2 & skp2 & fs4 & _ & H1 & _ & H2).
  exists fs2, fs4. split; assumption.
Defined.

(** the three module files and the workflow file that cannot be read *)
Lemma unreadable_files_are_reported_witness :
  mixed_modules_fs !! "modules" = Some mixed_modules
  /\ mixed_workflows_fs !! "workflows" = Some mixed_workflows
  /\ scan_module_file str_by_type "modules" "broken.zip"
       (ScanState mixed_modules_fs [] [] [])
     = (ScanState mixed_modules_fs [] ["❌ broken.zip: 无效的ZIP文件"]
                  ["broken.zip"], Ok tt)
  /\ scan_module_file str_by_type "modules" "empty.zip"
       (ScanState mixed_modules_fs [] [] [])
     = (ScanState mixed_modules_fs []
                  ["❌ empty.zip: ZIP中未找到manifest.json"] ["empty.zip"],
        Ok tt)
  /\ scan_module_file str_by_type "modules" "garbled.zip"
       (ScanState mixed_modules_fs [] [] [])
     = (ScanState mixed_modules_fs []
                  ["❌ garbled.zip: manifest.json解析错误 - Expecting value"]
                  ["garbled.zip"], Ok tt)
  /\ scan_workflow_file str_by_type "workflows" "bad.json"
       (ScanState mixed_workflows_fs [] [] [])
     = (ScanState mixed_workflows_fs []
                  ["❌ bad.json: JSON解析错误 - Expecting value"] ["bad.json"],
        Ok tt).
Proof.
  split; [reflexivity|]. split; [reflexivity|].
  destruct (unreadable_files_are_reported str_by_type "modules" "broken.zip"
              (ScanState mixed_modules_fs [] [] []) mixed_modules eq_refl)
    as (Hplain & _).
  destruct (unreadable_files_are_reported str_by_type "modules" "empty.zip"
              (ScanState mixed_modules_fs [] [] []) mixed_modules eq_refl)
    as (_ & Hnone & _).
  destruct (unreadable_files_are_reported str_by_type "modules" "garbled.zip"
              (ScanState mixed_modules_fs [] [] []) mixed_modules eq_refl)
    as (_ & _ & Hgarbled & _).
  destruct (unreadable_files_are_reported str_by_type "workflows" "bad.json"
              (ScanState mixed_workflows_fs [] [] []) mixed_workflows eq_refl)
    as (_ & _ & _ & Hjson).
  split; [exact (Hplain _ _ eq_refl)|].
  split; [exact (Hnone _ _ eq_refl eq_refl)|].
  split; [exact (Hgarbled _ _ "manifest.json" "Expecting value"
                   eq_refl eq_refl eq_refl)|].
  exact (Hjson _ _ eq_refl).
Defined.

(** a name without the suffix, and names with the suffix at the end only *)
Lemma normalize_agrees_with_spec_witness :
  PyStr.endswith "notes.txt" ".json" = false
  /\ PyStr.endswith "notes.txt" ".zip" = false
  /\ PyStr.contains ".json" "hello" = false
  /\ PyStr.contains ".zip" "hello" = false
  /\ normalize_workflow_id "notes.txt" = "notes.txt"
  /\ normalize_module_id "notes.txt" = "notes.txt"
  /\ normalize_workflow_id ("hello" +:+ ".json") = "hello"
  /\ normalize_module_id ("hello" +:+ ".zip") = "hello".
Proof.
  destruct (normalize_agrees_with_spec "notes.txt" "hello")
    as (Hj & Hz & Hsj & Hsz).
  split; [reflexivity|]. split; [reflexivity|].
  split; [reflexivity|]. split; [reflexivity|].
  split; [exact (proj2 (Hj eq_refl))|].
  split; [exact (proj2 (Hz eq_refl))|].
  split; [exact (proj2 (Hsj eq_refl)) | exact (proj2 (Hsz eq_refl))].
Defined.

(** both directories present and empty *)
Lemma exit_status_when_written_witness :
  empty_dirs_fs !! workflows_dir_of ["generate-index.py"] = Some []
  /\ may_write "index.json" []
  /\ empty_dirs_fs !! modules_dir_of ["generate-index.py"] = Some []
  /\ dir_encodable [] = true
  /\ encodable_str (workflows_dir_of ["generate-index.py"]) = true
  /\ encodable_str (modules_dir_of ["generate-index.py"]) = true
  /\ exists errs1 errs2 : list string,
      exit_status str_by_type ["generate-index.py"]
        "2026-01-01T00:00:00" "2026-01-01T00:00:01" empty_dirs_fs
      = (if (length errs1 =? 0)%nat && (length errs2 =? 0)%nat
         then 0 else 1)%Z.
Proof.
  assert (may_write "index.json" []) as Hw by (intros data; discriminate).
  split; [reflexivity|]. split; [exact Hw|]. split; [reflexivity|].
  split; [reflexivity|]. split; [reflexivity|]. split; [reflexivity|].
  destruct (exit_status_when_written str_by_type ["generate-index.py"]
              "2026-01-01T00:00:00" "2026-01-01T00:00:01" empty_dirs_fs [] []
              eq_refl Hw eq_refl Hw eq_refl eq_refl eq_refl eq_refl)
    as (fs1 & its1 & errs1 & skp1 & fs2 & ok1 & its2 & errs2 & skp2 & _ & _
        & _ & Hexit).
  exists errs1, errs2. exact Hexit.
Defined.

(** a workflow file that does not parse *)
Lemma scan_workflow_file_rejected_witness :
  (forall dir d w,
      mixed_workflows_fs !! "workflows" = Some dir ->
      alist_get "bad.json" dir = Some (File (Plain (JsonText (JObj d))) w) ->
      validate_workflow str_by_type (JObj d) "bad.json"
      <> Ok (true, None, Some (JObj d)))
  /\ exists msg,
      scan_workflow_file str_by_type "workflows" "bad.json"
        (ScanState mixed_workflows_fs [] [] [])
      = (with_error msg "bad.json" (ScanState mixed_workflows_fs [] [] []),
         Ok tt).
Proof.
  assert (forall dir d w,
             mixed_workflows_fs !! "workflows" = Some dir ->
             alist_get "bad.json" dir
             = Some (File (Plain (JsonText (JObj d))) w) ->
             validate_workflow str_by_type (JObj d) "bad.json"
             <> Ok (true, None, Some (JObj d))) as Hbad.
  { intros dir d w Hdir Hf.
    assert (Some dir = Some mixed_workflows) as Heq
        by (rewrite <- Hdir; reflexivity).
    injection Heq as ->. discriminate Hf. }
  split; [exact Hbad|].
  exact (scan_workflow_file_rejected str_by_type "workflows" "bad.json"
           (ScanState mixed_workflows_fs [] [] []) Hbad).
Defined.

(** ** Metadata that is not an object, and names with the suffix twice *)

(** The statement of C7 for every parsed document fails where the
    metadata block or the manifest is not an object.  A string binds no
    field, yet for the metadata block ["id name"] the message names four
    of the six required fields, [in] being the substring test; for the
    manifest [["id"]], a list, the message leaves out [id]; and for the
    metadata block [null] the validator returns no message: it raises
    [TypeError]. *)
Lemma missing_fields_of_non_object :
  validate_workflow str_by_type (JObj [("_meta", JStr "id name")]) "a.json"
  = Ok (false,
        Some "_meta缺少必需字段: description, author, version, vFlowLevel",
        None)
  /\ validate_workflow str_by_type (JObj [("_meta", JStr "id name")]) "a.json"
     <> Ok (false,
            Some ("_meta缺少必需字段: "
                    +:+ PyStr.join ", " required_meta_fields),
            None)
  /\ validate_module str_by_type (JArr [JStr "id"]) "m.zip"
     = Ok (false,
           Some "manifest缺少必需字段: name, description, author, version, category")
  /\ validate_module str_by_type (JArr [JStr "id"]) "m.zip"
     <> Ok (false,
            Some ("manifest缺少必需字段: " +:+ PyStr.join ", " required_fields))
  /\ validate_workflow str_by_type (JObj [("_meta", JNull)]) "a.json"
     = Raise (Exn TypeError "argument of type 'NoneType' is not iterable").
Proof.
  split; [reflexivity|]. split; [discriminate|].
  split; [reflexivity|]. split; [discriminate|]. reflexivity.
Qed.

(** C9: the workflow file [a.json.json] whose metadata [id] is [a] is
    accepted and indexed with the [id] [a], where the file name with its
    extension stripped is [a.json]; the same document with the [id]
    [a.json] is rejected for a mismatch.  Likewise the module
    [pack.zip.zip] is indexed with the [id] [pack], not [pack.zip]. *)
Theorem entry_id_is_not_stripped_filename :
  (exists item : dict,
      snd (scan_workflows_directory str_by_type "workflows" double_suffix_fs)
      = Ok ([item], [], [])
      /\ alist_get "filename" item = Some (JStr "a.json.json")
      /\ alist_get "id" item = Some (JStr "a"))
  /\ strip_suffix_spec ".json" "a.json.json" = "a.json"
  /\ validate_workflow str_by_type (JObj (sample_workflow "a.json"))
       "a.json.json"
     = Ok (false, Some "_meta.id 不匹配: 文件名='a', _meta.id='a.json'", None)
  /\ (exists item : dict,
         snd (scan_modules_directory str_by_type "modules" double_suffix_fs)
         = Ok ([item], [], [])
         /\ alist_get "filename" item = Some (JStr "pack.zip.zip")
         /\ alist_get "id" item = Some (JStr "pack"))
  /\ strip_suffix_spec ".zip" "pack.zip.zip" = "pack.zip".
Proof.
  split.
  { eexists. split; [vm_compute; reflexivity|]. split; reflexivity. }
  split; [reflexivity|]. split; [reflexivity|].
  split; [|reflexivity].
  eexists. split; [vm_compute; reflexivity|]. split; reflexivity.
Qed.
